(** * sheet-to-sheet-to-doc.js: the row classifier

    A shallow embedding of the Apps Script [sheet-to-sheet-to-doc.js]: the
    classification pipeline ([findColumnHeaders], [processData] and the
    guards of [processAndCreateSheetsAndDocs]) and, over an abstract host,
    the sheets and documents written from it ([createOrClearSheets],
    [createDocsFromSheets] and the end of the run), with the properties
    proved over them.

    Modelling conventions.
    - A JavaScript string is a [string]; literals are the UTF-8 bytes of the
      source text.  [split] and [includes] work position by position, which on
      well-formed text agrees with the code-unit view of the host.
    - The host methods [String.prototype.trim], [toLowerCase] and
      [toUpperCase] are not part of the script: they are the fields of the
      class [StringPrototype], and every general theorem holds for any
      implementation of them.  [BasicLatin] is the instance used to run
      the model on concrete sheets.
    - A sheet is what [getValues()] returns for text cells, a list of rows of
      strings (the JSDoc type [Array<Array<string>>]), so [.toString()] on a
      cell is the identity; on [undefined] it throws.
    - A JavaScript array that is written by index is an [Array]: its
      elements, where a hole or [undefined] is [None], and the one named
      property the script can create, the one called [undefined].
    - An object used as a map (the header index, the buckets, the sets of
      row indices) is a [gmap] over its own properties, which is what the
      script reads for the five column names and the four rule names; the
      rules, an object literal, are the list of their entries in insertion
      order.
    - An uncaught [TypeError] is the second constructor of [result]. *)

From stdpp Require Import gmap strings list fin_maps pretty.
From Stdlib Require Import Ascii.

(** ** Strings *)

(** [s.startsWith(search)], the test [includes] repeats at every position. *)
Fixpoint startsWith (s search : string) : bool :=
  match search, s with
  | EmptyString, _ => true
  | String _ _, EmptyString => false
  | String c search', String d s' =>
      if decide (c = d) then startsWith s' search' else false
  end.

(** [s.includes(search)]. *)
Fixpoint includes (s search : string) : bool :=
  startsWith s search ||
  match s with
  | EmptyString => false
  | String _ s' => includes s' search
  end.

(** [s.split(sep)] for a separator of one character: the pieces between the
    separators, empty ones included; never the empty list. *)
Fixpoint split (sep : ascii) (s : string) : list string :=
  match s with
  | EmptyString => [EmptyString]
  | String c s' =>
      if decide (c = sep) then EmptyString :: split sep s'
      else match split sep s' with
           | piece :: pieces => String c piece :: pieces
           | [] => [String c EmptyString]
           end
  end.

(** The methods of [String.prototype] that the host provides. *)
Class StringPrototype := {
  trim : string → string;
  toLowerCase : string → string;
  toUpperCase : string → string
}.

(** *** The Basic Latin host

    Case mapping of the letters A-Z and a-z, every other byte unchanged, and
    trimming of the white space below U+0080.  It agrees with the host on
    every string whose letters outside Basic Latin are already in the wanted
    case and whose ends carry no other white space. *)
Module BasicLatin.

Definition lowerChar (c : ascii) : ascii :=
  let n := nat_of_ascii c in
  if (65 <=? n) && (n <=? 90) then ascii_of_nat (n + 32) else c.

Definition upperChar (c : ascii) : ascii :=
  let n := nat_of_ascii c in
  if (97 <=? n) && (n <=? 122) then ascii_of_nat (n - 32) else c.

Fixpoint mapChars (f : ascii → ascii) (s : string) : string :=
  match s with
  | EmptyString => EmptyString
  | String c s' => String (f c) (mapChars f s')
  end.

Fixpoint trimStart (s : string) : string :=
  match s with
  | EmptyString => EmptyString
  | String c s' => if Ascii.is_space c then trimStart s' else s
  end.

Fixpoint trimEnd (s : string) : string :=
  match s with
  | EmptyString => EmptyString
  | String c s' =>
      match trimEnd s' with
      | EmptyString => if Ascii.is_space c then EmptyString else String c EmptyString
      | t => String c t
      end
  end.

Definition host : StringPrototype := {|
  trim s := trimEnd (trimStart s);
  toLowerCase := mapChars lowerChar;
  toUpperCase := mapChars upperChar
|}.

End BasicLatin.

(** ** Values, arrays and exceptions *)

Inductive result (A : Type) : Type :=
  | Ok (a : A)
  | TypeError.
Arguments Ok {A} a.
Arguments TypeError {A}.

Definition bind {A B} (r : result A) (k : A → result B) : result B :=
  match r with
  | Ok a => k a
  | TypeError => TypeError
  end.

Notation "x <- r ;; k" := (bind r (fun x => k))
  (at level 100, r at next level, right associativity).

(** [v.toString()] on a cell value: [undefined.toString()] throws. *)
Definition toString (v : option string) : result string :=
  match v with
  | Some s => Ok s
  | None => TypeError
  end.

Record Array := mkArray {
  elements : list (option string);
  undefinedProperty : option string
}.

(** [[...originalRow]] *)
Definition spread (originalRow : list string) : Array :=
  {| elements := Some <$> originalRow; undefinedProperty := None |}.

(** [a[k]] where the key [k] is the value of [colIndices[name]]: an index,
    or [undefined], which names the property [a.undefined]. *)
Definition arrayGet (a : Array) (k : option nat) : option string :=
  match k with
  | Some index => default None (elements a !! index)
  | None => undefinedProperty a
  end.

(** [a[k] = v]: inside the array the element is replaced; past its end the
    array grows, with holes up to the new element. *)
Definition arraySet (a : Array) (k : option nat) (v : string) : Array :=
  match k with
  | Some index =>
      {| elements :=
           if decide (index < length (elements a))
           then <[index := Some v]> (elements a)
           else elements a ++ replicate (index - length (elements a)) None ++ [Some v];
         undefinedProperty := undefinedProperty a |}
  | None => {| elements := elements a; undefinedProperty := Some v |}
  end.

(** ** Configuration *)

Definition quote : string := String "034"%char EmptyString.

Definition PRINCIPAL_SHEET_NAME : string := "Principal".
Definition PUBLICABLE_COL_NAME : string := "Publicable".
Definition RESPUESTA_COL_NAME : string := "Respuesta".
Definition RESPUESTA_ACT_COL_NAME : string := "Respuesta Actualizada".
Definition ETIQUETA_ORIG_COL_NAME : string := "Etiqueta Original".
Definition ETIQUETA_PROP_COL_NAME : string := "Etiqueta Propuesta".

Definition TAG_SEPARATOR : ascii := ";"%char.
Definition EXCLUDED_TAG : string := "Sedes".

(** The object literal, as its entries in insertion order (the order of
    [for ... in]). *)
Definition GROUPING_RULES : list (string * list string) :=
  [ ("FAQ_Ingresantes",
      ["Ingreso"; "Ingresantes"; "Art. 7"; "Inscripción"; "Beca"; "CIVU"]);
    ("FAQ_Alumnos_Examen", ["Alumno"; "Examen"]);
    ("FAQ_Tramites_Equivalencias_SAG",
      ["Tramites"; "Aranceles"; "equivalencias"; "SAG"]);
    ("FAQ_Preguntas_frecuentes_generales",
      ["Oferta Académica"; "Postgrados"; "Cursos"; "FAQ"; "Varios"]) ].

(** [GROUPING_RULES[sheetName]] *)
Definition keywordsOf (sheetName : string) : option (list string) :=
  (list_to_map GROUPING_RULES : gmap string (list string)) !! sheetName.

(** ** The header index *)

(** The index is an object created by [{}], kept as the map of its own
    properties.  A lookup in the map is the value of [indices[name]] for
    every name that [Object.prototype] does not define, the names of the
    five required columns among them; [None] is [undefined].  The header
    cells are text: on a cell of another type [header.trim()] throws, which
    the model, where a cell is a string, does not reach. *)

(** [indices[key] = value]: the key becomes an own property, except
    [__proto__], the accessor of [Object.prototype], whose setter ignores
    a number and stores nothing. *)
Definition assignProperty (key : string) (value : nat) (indices : gmap string nat)
    : gmap string nat :=
  if decide (key = "__proto__") then indices else <[key := value]> indices.

(** [headers.forEach((header, index) => { indices[header.trim()] = index; })],
    started at position [index] on the object [indices]. *)
Fixpoint forEachHeader `{StringPrototype} (index : nat) (headers : list string)
    (indices : gmap string nat) : gmap string nat :=
  match headers with
  | [] => indices
  | header :: rest =>
      forEachHeader (S index) rest (assignProperty (trim header) index indices)
  end.

Definition findColumnHeaders `{StringPrototype} (headers : list string)
    : gmap string nat :=
  forEachHeader 0 headers ∅.

(** ** The classifier *)

(** The two objects [processData] fills: the buckets and, per bucket, the
    set of source row indices already pushed to it. *)
Record State := mkState {
  outputData : gmap string (list Array);
  processedRowIndicesBySheet : gmap string (gset nat)
}.

(** How the body of the row loop leaves its first part: by [continue], or on
    to the categorisation with the row copy and its tags. *)
Inductive RowOutcome :=
  | Skipped
  | Parsed (rowData : Array) (tags : list string).

(** The initialisation loop over the keys of [GROUPING_RULES]. *)
Definition initialState : State :=
  fold_left
    (fun st '(sheetName, _) =>
       {| outputData := <[sheetName := []]> (outputData st);
          processedRowIndicesBySheet :=
            <[sheetName := ∅]> (processedRowIndicesBySheet st) |})
    GROUPING_RULES
    {| outputData := ∅; processedRowIndicesBySheet := ∅ |}.

Section Classifier.
Context `{StringPrototype}.

(** [rowData[colIndices[PUBLICABLE_COL_NAME]].toString().trim().toUpperCase()] *)
Definition publicableValue (colIndices : gmap string nat) (rowData : Array)
    : result string :=
  cell <- toString (arrayGet rowData (colIndices !! PUBLICABLE_COL_NAME)) ;;
  Ok (toUpperCase (trim cell)).

(** The two overwrites of the row copy: the answer by the updated answer,
    then the original tag by the proposed tag, each when the trimmed new
    value is not empty. *)
Definition transformRow (colIndices : gmap string nat) (rowData : Array)
    : result Array :=
  cell <- toString (arrayGet rowData (colIndices !! RESPUESTA_ACT_COL_NAME)) ;;
  let respuestaActualizada := trim cell in
  let rowData :=
    if decide (respuestaActualizada ≠ EmptyString)
    then arraySet rowData (colIndices !! RESPUESTA_COL_NAME) respuestaActualizada
    else rowData in
  cell <- toString (arrayGet rowData (colIndices !! ETIQUETA_PROP_COL_NAME)) ;;
  let etiquetaPropuesta := trim cell in
  let rowData :=
    if decide (etiquetaPropuesta ≠ EmptyString)
    then arraySet rowData (colIndices !! ETIQUETA_ORIG_COL_NAME) etiquetaPropuesta
    else rowData in
  Ok rowData.

(** [rowData[colIndices[ETIQUETA_ORIG_COL_NAME]].toString().trim()] *)
Definition finalEtiquetaString (colIndices : gmap string nat) (rowData : Array)
    : result string :=
  cell <- toString (arrayGet rowData (colIndices !! ETIQUETA_ORIG_COL_NAME)) ;;
  Ok (trim cell).

(** [.split(TAG_SEPARATOR).map(tag => tag.trim().toLowerCase())
     .filter(tag => tag !== "")] *)
Definition parseTags (etiqueta : string) : list string :=
  filter (fun tag => tag ≠ EmptyString)
    ((fun tag => toLowerCase (trim tag)) <$> split TAG_SEPARATOR etiqueta).

(** The first part of the loop body, up to the categorisation. *)
Definition prepareRow (colIndices : gmap string nat) (originalRow : list string)
    : result RowOutcome :=
  let rowData := spread originalRow in
  publicable <- publicableValue colIndices rowData ;;
  if decide (publicable = "NO") then Ok Skipped else
  rowData <- transformRow colIndices rowData ;;
  etiqueta <- finalEtiquetaString colIndices rowData ;;
  if decide (toLowerCase etiqueta = toLowerCase EXCLUDED_TAG)
  then Ok Skipped else
  let tags := parseTags etiqueta in
  if decide (length tags = 0) then Ok Skipped else
  Ok (Parsed rowData tags).

(** The search for a match, [for (const tag of tags)] with its [break]
    around [keywords.some(keyword => tag.includes(keyword))]. *)
Definition matchFound (keywords tags : list string) : bool :=
  existsb (fun tag => existsb (fun keyword => includes tag keyword) keywords) tags.

(** One round of [for (const sheetName in GROUPING_RULES)] for row [i].
    Both objects have had the key [sheetName] since the initialisation loop,
    so the two reads are total lookups. *)
Definition categorizeInto (i : nat) (rowData : Array) (tags : list string)
    (st : State) (rule : string * list string) : State :=
  let '(sheetName, rule_keywords) := rule in
  let keywords := toLowerCase <$> rule_keywords in
  if matchFound keywords tags
     && negb (bool_decide (i ∈ processedRowIndicesBySheet st !!! sheetName))
  then {| outputData :=
            <[sheetName := outputData st !!! sheetName ++ [rowData]]> (outputData st);
          processedRowIndicesBySheet :=
            <[sheetName := {[i]} ∪ processedRowIndicesBySheet st !!! sheetName]>
              (processedRowIndicesBySheet st) |}
  else st.

Definition categorize (i : nat) (rowData : Array) (tags : list string)
    (st : State) : State :=
  fold_left (categorizeInto i rowData tags) GROUPING_RULES st.

(** The row loop from index [i] on, over the rows [data[i]], [data[i+1]], ... *)
Fixpoint processRows (colIndices : gmap string nat) (i : nat)
    (rows : list (list string)) (st : State) : result State :=
  match rows with
  | [] => Ok st
  | originalRow :: rest =>
      outcome <- prepareRow colIndices originalRow ;;
      match outcome with
      | Skipped => processRows colIndices (S i) rest st
      | Parsed rowData tags =>
          processRows colIndices (S i) rest (categorize i rowData tags st)
      end
  end.

Definition processData (data : list (list string)) (colIndices : gmap string nat)
    : result (gmap string (list Array)) :=
  st <- processRows colIndices 1 (drop 1 data) initialState ;;
  Ok (outputData st).

(** *** The orchestration, up to the classification

    [processAndCreateSheetsAndDocs] reads the sheet, stops with an alert when
    it is missing, has no data row or lacks a required column, and otherwise
    classifies.  What follows the classification (sheets and documents) is
    input and output of the host and is not modelled. *)

Inductive Outcome :=
  | Alert (message : string)
  | Classified (categorizedData : result (gmap string (list Array))).

Definition requiredCols : list string :=
  [ PUBLICABLE_COL_NAME; RESPUESTA_COL_NAME; RESPUESTA_ACT_COL_NAME;
    ETIQUETA_ORIG_COL_NAME; ETIQUETA_PROP_COL_NAME ].

Definition sheetNotFoundAlert : string :=
  "Error: No se encontró la hoja llamada " +:+ quote +:+ PRINCIPAL_SHEET_NAME
  +:+ quote +:+ ".".

Definition emptySheetAlert : string :=
  "La hoja " +:+ quote +:+ PRINCIPAL_SHEET_NAME +:+ quote
  +:+ " está vacía o solo tiene encabezados.".

Definition missingColumnAlert (colName : string) : string :=
  "Error: No se encontró la columna " +:+ quote +:+ colName +:+ quote
  +:+ " en la hoja " +:+ quote +:+ PRINCIPAL_SHEET_NAME +:+ quote +:+ ".".

(** [for (const colName of requiredCols)]: the first name with
    [colIndices[colName] === undefined], if there is one. *)
Fixpoint firstMissing (colIndices : gmap string nat) (cols : list string)
    : option string :=
  match cols with
  | [] => None
  | colName :: rest =>
      if decide (colIndices !! colName = None) then Some colName
      else firstMissing colIndices rest
  end.

(** [principalSheet] is what [getSheetByName] found: [None] for [null],
    else the values of the data range. *)
Definition processAndCreateSheetsAndDocs
    (principalSheet : option (list (list string))) : Outcome :=
  match principalSheet with
  | None => Alert sheetNotFoundAlert
  | Some principalData =>
      if decide (length principalData < 2) then Alert emptySheetAlert else
      let headers := default [] (principalData !! 0) in
      let colIndices := findColumnHeaders headers in
      match firstMissing colIndices requiredCols with
      | Some colName => Alert (missingColumnAlert colName)
      | None => Classified (processData principalData colIndices)
      end
  end.

(** *** Vocabulary of the statements *)

(** The sheets [processData] is called on: the data range is rectangular and
    the caller has found every required column in the header row. *)
Definition validSheet (data : list (list string)) : bool :=
  match data with
  | [] => false
  | headers :: rows =>
      forallb (fun row => bool_decide (length row = length headers)) rows
      && forallb
           (fun colName => bool_decide (is_Some (findColumnHeaders headers !! colName)))
           requiredCols
  end.

(** The bucket of [sheetName] in what [processData] returned. *)
Definition bucketOf (categorizedData : result (gmap string (list Array)))
    (sheetName : string) : option (list Array) :=
  match categorizedData with
  | Ok outputData => outputData !! sheetName
  | TypeError => None
  end.

(** What one prepared row adds to the bucket of a rule. *)
Definition selected (rule_keywords : list string) (outcome : RowOutcome)
    : option Array :=
  match outcome with
  | Parsed rowData tags =>
      if matchFound (toLowerCase <$> rule_keywords) tags then Some rowData else None
  | Skipped => None
  end.

(** The cells of a row after [if (v !== "") rowData[k] = v] with [k] inside
    the row. *)
Definition overwrite (k : nat) (v : string) (cells : list string) : list string :=
  if decide (v ≠ EmptyString) then <[k := v]> cells else cells.

(** The five required columns, found at positions inside a row of [width]
    cells. *)
Record Resolved (colIndices : gmap string nat) (width : nat)
    (publicable respuesta actualizada original propuesta : nat) : Prop := {
  resolved_publicable : colIndices !! PUBLICABLE_COL_NAME = Some publicable;
  resolved_respuesta : colIndices !! RESPUESTA_COL_NAME = Some respuesta;
  resolved_actualizada : colIndices !! RESPUESTA_ACT_COL_NAME = Some actualizada;
  resolved_original : colIndices !! ETIQUETA_ORIG_COL_NAME = Some original;
  resolved_propuesta : colIndices !! ETIQUETA_PROP_COL_NAME = Some propuesta;
  resolved_width :
    Forall (fun k => k < width)
      [publicable; respuesta; actualizada; original; propuesta];
  resolved_distinct :
    NoDup [publicable; respuesta; actualizada; original; propuesta]
}.


(** The source rows, counted from [i], that add to the bucket of a rule. *)
Fixpoint selectedIndices (rule_keywords : list string) (i : nat)
    (outcomes : list RowOutcome) : gset nat :=
  match outcomes with
  | [] => ∅
  | outcome :: rest =>
      (match selected rule_keywords outcome with
       | Some _ => {[i]}
       | None => ∅
       end) ∪ selectedIndices rule_keywords (S i) rest
  end.

End Classifier.

(** ** The host: sheets, folders, documents and dialogs

    [createOrClearSheets], [createDocsFromSheets] and the end of
    [processAndCreateSheetsAndDocs] talk to the spreadsheet, to Drive, to the
    document service and to the user.  None of these is part of the script:
    the calls are the fields of the class [Host], over states and handles
    that stay abstract, and nothing is assumed of them except that they
    return.  What the script itself decides is kept in [World]: the lines it
    logs, the alerts and the prompt it shows, and the reports it sets out to
    write. *)

(** [ui.Button] *)
Module Button.
Inductive t := OK | CANCEL | CLOSE | YES | NO.
End Button.

#[global] Instance Button_eq_dec : EqDecision Button.t.
Proof. solve_decision. Defined.

(** What [ui.prompt] returns. *)
Record PromptResponse := {
  getSelectedButton : Button.t;
  getResponseText : string
}.

(** The document one round of [sheetNames.forEach] sets out to write, from
    [DocumentApp.create(docName)] to [doc.saveAndClose()]: its name, the
    folder it is moved to when [folder] is not [null], the heading
    paragraph, and the table whose first row is set in bold. *)
Record Report (Folder : Type) := {
  docName : string;
  destination : option Folder;
  heading : string;
  table : list (list string)
}.
Arguments docName {Folder} _.
Arguments destination {Folder} _.
Arguments heading {Folder} _.
Arguments table {Folder} _.

Class Host := {
  Spreadsheet : Type;
  Sheet : Type;
  Drive : Type;
  Folder : Type;
  (** [ss.getSheetByName(name)], [None] for [null] *)
  getSheetByName : Spreadsheet → string → option Sheet;
  (** [sheet.clearContents()] *)
  clearContents : Sheet → Spreadsheet → Spreadsheet;
  (** [ss.insertSheet(name)] *)
  insertSheet : string → Spreadsheet → Sheet * Spreadsheet;
  (** [sheet.getRange(row, column, numRows, numColumns).setValues(values)] *)
  setValues : Sheet → nat → nat → nat → nat → list (list (option string))
              → Spreadsheet → Spreadsheet;
  (** [sheet.getRange(row, column, numRows, numColumns).setFontWeight(weight)] *)
  setFontWeight : Sheet → nat → nat → nat → nat → string → Spreadsheet → Spreadsheet;
  (** [sheet.autoResizeColumns(startColumn, numColumns)] *)
  autoResizeColumns : Sheet → nat → nat → Spreadsheet → Spreadsheet;
  (** [sheet.getLastRow()] *)
  getLastRow : Sheet → Spreadsheet → nat;
  (** [sheet.getDataRange().getValues()] *)
  getValues : Sheet → Spreadsheet → list (list string);
  (** [DriveApp.getFolderById(id)]: the folder, or the error it throws *)
  getFolderById : string → Drive → Folder + string;
  (** [DriveApp.getRootFolder()] *)
  getRootFolder : Drive → Folder;
  (** [folder.getName()] *)
  getName : Folder → string;
  (** The body of the [try] of one report: the identifier of the saved
      document, or the error one of its calls throws. *)
  createReport : Report Folder → Drive → (string + string) * Drive
}.

Record World `{Host} := mkWorld {
  spreadsheet : Spreadsheet;
  drive : Drive;
  logged : list string;
  alerted : list string;
  prompted : list (string * string);
  reports : list (Report Folder)
}.

Section HostCalls.
Context `{StringPrototype} `{Host}.

(** [Logger.log(message)] *)
Definition log (message : string) (w : World) : World :=
  {| spreadsheet := spreadsheet w; drive := drive w;
     logged := logged w ++ [message]; alerted := alerted w;
     prompted := prompted w; reports := reports w |}.

(** [ui.alert(message)] *)
Definition alert (message : string) (w : World) : World :=
  {| spreadsheet := spreadsheet w; drive := drive w;
     logged := logged w; alerted := alerted w ++ [message];
     prompted := prompted w; reports := reports w |}.

(** [ui.prompt(title, message, ui.ButtonSet.OK_CANCEL)], whose answer is an
    argument of [createDocsFromSheets]. *)
Definition prompt (title message : string) (w : World) : World :=
  {| spreadsheet := spreadsheet w; drive := drive w;
     logged := logged w; alerted := alerted w;
     prompted := prompted w ++ [(title, message)]; reports := reports w |}.

(** A call on the spreadsheet. *)
Definition onSpreadsheet (call : Spreadsheet → Spreadsheet) (w : World) : World :=
  {| spreadsheet := call (spreadsheet w); drive := drive w;
     logged := logged w; alerted := alerted w;
     prompted := prompted w; reports := reports w |}.

(** One round of [for (const sheetName in categorizedData)]. *)
Definition createOrClearSheet (headers : list string)
    (acc : list string * World) (entry : string * list Array)
    : list string * World :=
  let '(updatedSheetNames, w) := acc in
  let '(sheetName, dataRows) := entry in
  if decide (0 < length dataRows) then
    let '(targetSheet, w) :=
      match getSheetByName (spreadsheet w) sheetName with
      | Some targetSheet =>
          (targetSheet,
           log ("Hoja " +:+ quote +:+ sheetName +:+ quote +:+ " limpiada.")
             (onSpreadsheet (clearContents targetSheet) w))
      | None =>
          let '(targetSheet, ss) := insertSheet sheetName (spreadsheet w) in
          (targetSheet,
           log ("Hoja " +:+ quote +:+ sheetName +:+ quote +:+ " creada.")
             (onSpreadsheet (fun _ => ss) w))
      end in
    let w :=
      onSpreadsheet
        (setValues targetSheet 1 1 1 (length headers) [Some <$> headers]) w in
    let w :=
      onSpreadsheet (setFontWeight targetSheet 1 1 1 (length headers) "bold") w in
    let w :=
      onSpreadsheet
        (setValues targetSheet 2 1 (length dataRows) (length headers)
           (elements <$> dataRows)) w in
    let w := onSpreadsheet (autoResizeColumns targetSheet 1 (length headers)) w in
    (updatedSheetNames ++ [sheetName], w)
  else
    match getSheetByName (spreadsheet w) sheetName with
    | Some existingSheet =>
        (updatedSheetNames,
         log ("Hoja " +:+ quote +:+ sheetName +:+ quote
              +:+ " limpiada por estar vacía.")
           (onSpreadsheet (clearContents existingSheet) w))
    | None => (updatedSheetNames, w)
    end.

(** [categorizedData] is the object as its entries in the order of
    [for ... in]. *)
Definition createOrClearSheets (categorizedData : list (string * list Array))
    (headers : list string) (w : World) : list string * World :=
  fold_left (createOrClearSheet headers) categorizedData ([], w).

(** The entries, in the order of [for ... in], of the object [processData]
    returns: its keys are those of [GROUPING_RULES], set in that order by
    the initialisation loop. *)
Definition forIn (categorizedData : gmap string (list Array))
    : list (string * list Array) :=
  omap (fun '(sheetName, _) =>
          (fun dataRows => (sheetName, dataRows)) <$> categorizedData !! sheetName)
    GROUPING_RULES.

(** One round of [sheetNames.forEach], with the [folder] chosen before. *)
Definition createDocFromSheet (folder : option Folder) (w : World)
    (sheetName : string) : World :=
  let skipped :=
    log ("Omitiendo la creación del documento para la hoja " +:+ quote +:+ sheetName
         +:+ quote +:+ " porque está vacía o no existe.") w in
  match getSheetByName (spreadsheet w) sheetName with
  | None => skipped
  | Some sheet =>
      if decide (getLastRow sheet (spreadsheet w) ≤ 1) then skipped else
      let data := getValues sheet (spreadsheet w) in
      let docName := "Reporte - " +:+ sheetName in
      let report :=
        {| docName := docName; destination := folder;
           heading := sheetName; table := data |} in
      let '(saved, d) := createReport report (drive w) in
      let w :=
        {| spreadsheet := spreadsheet w; drive := d;
           logged := logged w; alerted := alerted w;
           prompted := prompted w; reports := reports w ++ [report] |} in
      match saved with
      | inl id =>
          log ("Documento " +:+ quote +:+ docName +:+ quote +:+ " creado (ID: "
               +:+ id +:+ ") en la carpeta " +:+ quote
               +:+ match folder with
                   | Some folder => getName folder
                   | None => "Raíz"
                   end
               +:+ quote +:+ ".") w
      | inr e =>
          log ("Error al crear el documento para la hoja " +:+ quote +:+ sheetName
               +:+ quote +:+ ": " +:+ e) w
      end
  end.

Definition createDocsFromSheets (sheetNames : list string)
    (response : PromptResponse) (w : World) : World :=
  let w :=
    prompt "Creación de Documentos"
      ("Ingresa el ID de la carpeta de Google Drive donde quieres guardar los "
       +:+ "documentos (deja vacío para guardar en la raíz de " +:+ quote
       +:+ "Mi unidad" +:+ quote +:+ "):") w in
  if decide (getSelectedButton response = Button.OK) then
    let folderId := trim (getResponseText response) in
    let '(folder, w) :=
      if decide (folderId ≠ EmptyString) then
        match getFolderById folderId (drive w) with
        | inl folder =>
            (Some folder,
             log ("Documentos se guardarán en la carpeta: " +:+ getName folder) w)
        | inr e =>
            (Some (getRootFolder (drive w)),
             alert ("No se pudo encontrar o acceder a la carpeta con ID " +:+ quote
                    +:+ folderId +:+ quote
                    +:+ ". Los documentos se guardarán en la raíz de " +:+ quote
                    +:+ "Mi unidad" +:+ quote +:+ ".")
               (log ("Error al acceder a la carpeta con ID " +:+ quote +:+ folderId
                     +:+ quote +:+ ". Se guardará en la raíz. Error: " +:+ e) w))
        end
      else
        (Some (getRootFolder (drive w)),
         log ("Documentos se guardarán en la raíz de " +:+ quote +:+ "Mi unidad"
              +:+ quote +:+ ".") w) in
    fold_left (createDocFromSheet folder) sheetNames w
  else
    alert "Creación de documentos cancelada."
      (log "Creación de documentos cancelada por el usuario." w).

Definition completedAlert (created : nat) : string :=
  "Proceso completado. Se crearon/actualizaron " +:+ pretty created
  +:+ " hojas y sus documentos correspondientes.".

Definition noSheetsAlert : string :=
  "Proceso completado. No se generaron hojas nuevas (quizás no había datos que "
  +:+ "cumplieran los criterios).".

(** The whole of [processAndCreateSheetsAndDocs]: the guards and the
    classification, which are [processAndCreateSheetsAndDocs] above, then the
    sheets, the documents and the last alert.  A [TypeError] of the
    classification is not caught. *)
Definition runScript (response : PromptResponse) (w : World) : result World :=
  let principalSheet := getSheetByName (spreadsheet w) PRINCIPAL_SHEET_NAME in
  let principalData :=
    (fun sheet => getValues sheet (spreadsheet w)) <$> principalSheet in
  match processAndCreateSheetsAndDocs principalData with
  | Alert message => Ok (alert message w)
  | Classified categorizedData =>
      categorizedData <- categorizedData ;;
      let headers := default [] (default [] principalData !! 0) in
      let '(createdSheetNames, w) :=
        createOrClearSheets (forIn categorizedData) headers w in
      if decide (0 < length createdSheetNames) then
        Ok (alert (completedAlert (length createdSheetNames))
              (createDocsFromSheets createdSheetNames response w))
      else Ok (alert noSheetsAlert w)
  end.

End HostCalls.

(** ** A sample sheet

    The header row of the script's sheet and a few data rows, run on the
    [BasicLatin] host. *)
Module Sample.

Definition headers : list string :=
  [ "Publicable"; "Respuesta"; "Respuesta Actualizada"; "Etiqueta Original";
    "Etiqueta Propuesta" ].

Definition beca : list string := ["SI"; "old"; "new answer"; "Beca"; ""].
Definition notPublished : list string := [" no "; "r"; ""; "Beca"; ""].
Definition sedes : list string := ["SI"; "r"; ""; "Examen"; " sedes "].
Definition ingresoSedes : list string := ["SI"; "r"; ""; "Ingreso;Sedes"; ""].
Definition noTags : list string := ["SI"; "r"; ""; " ; ;"; ""].
Definition twoRules : list string :=
  ["SI"; "r"; ""; "Inscripción abierta; Varios temas"; ""].
Definition twoKeywords : list string := ["SI"; "r"; ""; "Ingreso;Ingresantes"; ""].
Definition examen : list string := ["SI"; "r"; ""; "Cursos"; "Examen final"].

Definition colIndices : gmap string nat :=
  findColumnHeaders (H := BasicLatin.host) headers.


Definition classify (rows : list (list string))
    : result (gmap string (list Array)) :=
  processData (H := BasicLatin.host) (headers :: rows) colIndices.

End Sample.

(** ** A sample host

    A small host to run the script on: sheets are grids kept by name, the
    one folder of Drive is found under the identifier "reportes", and every
    report is saved. *)
Module SampleHost.

Definition host : Host := {|
  Spreadsheet := gmap string (list (list (option string)));
  Sheet := string;
  Drive := nat;
  Folder := string;
  getSheetByName ss name :=
    match ss !! name with Some _ => Some name | None => None end;
  clearContents sheet ss := <[sheet := []]> ss;
  insertSheet name ss := (name, <[name := []]> ss);
  setValues sheet row column numRows numColumns values ss :=
    <[sheet := take (row - 1) (ss !!! sheet) ++ values
               ++ drop (row - 1 + numRows) (ss !!! sheet)]> ss;
  setFontWeight sheet row column numRows numColumns weight ss := ss;
  autoResizeColumns sheet startColumn numColumns ss := ss;
  getLastRow sheet ss := length (ss !!! sheet);
  getValues sheet ss := fmap (default EmptyString) <$> ss !!! sheet;
  getFolderById id d :=
    if decide (id = "reportes") then inl "Reportes" else inr "Exception: no folder";
  getRootFolder d := "Mi unidad";
  getName folder := folder;
  createReport report d := (inl ("doc-" +:+ pretty d), S d)
|}.

(** The spreadsheet with the sample rows in the sheet Principal. *)
Definition world (rows : list (list string)) : World (H := host) :=
  @mkWorld host
    ({[ PRINCIPAL_SHEET_NAME := fmap Some <$> (Sample.headers :: rows) ]}
       : gmap string (list (list (option string))))
    O [] [] [] [].

(** A spreadsheet with a filled sheet, a sheet with its header row only,
    and no sheet of the third name asked for. *)
Definition written : World (H := host) :=
  @mkWorld host
    ({[ "FAQ_Ingresantes" := [[Some "Publicable"]; [Some "SI"]];
        "FAQ_Alumnos_Examen" := [[Some "Publicable"]] ]}
       : gmap string (list (list (option string))))
    O [] [] [] [].

Definition ok (text : string) : PromptResponse :=
  {| getSelectedButton := Button.OK; getResponseText := text |}.

Definition cancel : PromptResponse :=
  {| getSelectedButton := Button.CANCEL; getResponseText := EmptyString |}.

End SampleHost.

(** * Properties *)

(** ** Substrings *)

Lemma append_empty (t : string) : EmptyString +:+ t = t.
Proof. reflexivity. Qed.

Lemma append_String (c : ascii) (s t : string) :
  String c s +:+ t = String c (s +:+ t).
Proof. reflexivity. Qed.

Lemma startsWith_true (s search : string) :
  startsWith s search = true ↔ ∃ rest, s = search +:+ rest.
Proof.
  revert s. induction search as [|c search IH]; intros s.
  - split; [intros _; by exists s | by destruct s].
  - destruct s as [|d s]; simpl.
    + split; [done | intros [rest Hrest]; discriminate Hrest].
    + destruct (decide (c = d)) as [->|Hne].
      * rewrite IH. split; intros [rest Hrest]; exists rest.
        -- by rewrite append_String, Hrest.
        -- rewrite append_String in Hrest. by injection Hrest.
      * split; [done | intros [rest Hrest]].
        rewrite append_String in Hrest. injection Hrest as Hc _. by destruct Hne.
Qed.

(** [includes] is the substring test. *)
Lemma includes_true (s search : string) :
  includes s search = true ↔ ∃ before after, s = before +:+ search +:+ after.
Proof.
  induction s as [|d s IH].
  - cbn [includes]. rewrite orb_false_r, startsWith_true. split.
    + intros [rest Hrest]. by exists EmptyString, rest.
    + intros [[|c before] [after Hs]]; [by exists after | discriminate Hs].
  - cbn [includes]. rewrite orb_true_iff, startsWith_true, IH. split.
    + intros [[rest Hrest] | (before & after & Hs)].
      * by exists EmptyString, rest.
      * exists (String d before), after. by rewrite append_String, Hs.
    + intros ([|c before] & after & Hs).
      * left. by exists after.
      * right. rewrite append_String in Hs. injection Hs as _ Hs.
        by exists before, after.
Qed.

(** ** The header index *)

Section HeaderIndex.
Context `{StringPrototype}.

Lemma assignProperty_lookup_eq (name : string) (value : nat)
    (indices : gmap string nat) :
  name ≠ "__proto__" → assignProperty name value indices !! name = Some value.
Proof.
  intros Hname. unfold assignProperty. rewrite decide_False by done.
  apply lookup_insert_eq.
Qed.

Lemma assignProperty_lookup_ne (key name : string) (value : nat)
    (indices : gmap string nat) :
  key ≠ name → assignProperty key value indices !! name = indices !! name.
Proof.
  intros Hne. unfold assignProperty. case_decide; [done |].
  by apply lookup_insert_ne.
Qed.

Lemma forEachHeader_proto (headers : list string) :
  ∀ (index : nat) (indices : gmap string nat),
    forEachHeader index headers indices !! "__proto__" = indices !! "__proto__".
Proof.
  induction headers as [|header rest IH]; intros index indices; [done |].
  simpl. rewrite IH. unfold assignProperty. case_decide as Hkey; [done |].
  by rewrite lookup_insert_ne.
Qed.

(** The index stored under [name] is that of the last header that trims to
    [name]; where there is none, the object keeps what it had. *)
Lemma forEachHeader_lookup (headers : list string) :
  ∀ (index : nat) (indices : gmap string nat) (name : string) (k : nat),
    name ≠ "__proto__" →
    forEachHeader index headers indices !! name = Some k ↔
      (∃ j header, k = index + j ∧ headers !! j = Some header ∧ trim header = name ∧
         ∀ j' header', j < j' → headers !! j' = Some header' → trim header' ≠ name)
      ∨ (indices !! name = Some k ∧
         ∀ j header, headers !! j = Some header → trim header ≠ name).
Proof.
  induction headers as [|header rest IH]; intros index indices name k Hproto; simpl.
  - split; [intros Hk; right; by split | intros [(?&?&?&?&?)|[? _]]; done].
  - rewrite IH by done. split.
    + intros [(j & h & -> & Hj & Hname & Hlast) | [Hk Hnone]].
      * left. exists (S j), h. split_and!; [lia | done | done |].
        intros [|j'] h' Hlt Hj'; [lia |]. apply (Hlast j' h'); [lia | done].
      * destruct (decide (trim header = name)) as [Heq | Hne].
        -- left. exists 0, header. subst name.
           rewrite assignProperty_lookup_eq in Hk by done. injection Hk as <-.
           split_and!; [lia | done | done |].
           intros [|j'] h' Hlt Hj'; [lia |]. by apply (Hnone j' h').
        -- right. rewrite assignProperty_lookup_ne in Hk by done. split; [done |].
           intros [|j] h Hj; [by injection Hj as <- | by apply (Hnone j h)].
    + intros [(j & h & -> & Hj & Hname & Hlast) | [Hk Hnone]].
      * destruct j as [|j].
        -- right. injection Hj as <-. subst name.
           rewrite assignProperty_lookup_eq by done. split; [f_equal; lia |].
           intros j' h' Hj'. apply (Hlast (S j') h'); [lia | done].
        -- left. exists j, h. split_and!; [lia | done | done |].
           intros j' h' Hlt Hj'. apply (Hlast (S j') h'); [lia | done].
      * right. rewrite assignProperty_lookup_ne by apply (Hnone 0 header eq_refl).
        split; [done |]. intros j h Hj. by apply (Hnone (S j) h).
Qed.

Lemma findColumnHeaders_proto (headers : list string) :
  findColumnHeaders headers !! "__proto__" = None.
Proof. unfold findColumnHeaders. by rewrite forEachHeader_proto. Qed.

Lemma findColumnHeaders_Some (headers : list string) (name : string) (k : nat) :
  findColumnHeaders headers !! name = Some k ↔
    name ≠ "__proto__" ∧
    ∃ header, headers !! k = Some header ∧ trim header = name ∧
      ∀ j' header', k < j' → headers !! j' = Some header' → trim header' ≠ name.
Proof.
  destruct (decide (name = "__proto__")) as [-> | Hproto].
  - rewrite findColumnHeaders_proto. split; [done | by intros [? _]].
  - unfold findColumnHeaders. rewrite forEachHeader_lookup by done. split.
    + intros [(j & h & -> & Hj & Hname & Hlast) | [Hk _]]; [| done].
      split; [done | by exists h].
    + intros (_ & h & Hk & Hname & Hlast). left. by exists k, h.
Qed.

Lemma forEachHeader_keeps (headers : list string) :
  ∀ (index : nat) (indices : gmap string nat) (name : string),
    is_Some (indices !! name) →
    is_Some (forEachHeader index headers indices !! name).
Proof.
  induction headers as [|h rest IH]; intros index indices name Hsome; [done |].
  simpl. apply IH. unfold assignProperty. case_decide; [done |].
  rewrite lookup_insert. by case_decide.
Qed.

Lemma forEachHeader_finds (headers : list string) :
  ∀ (index : nat) (indices : gmap string nat) (j : nat) (header : string),
    headers !! j = Some header →
    trim header ≠ "__proto__" →
    is_Some (forEachHeader index headers indices !! trim header).
Proof.
  induction headers as [|h rest IH]; intros index indices j header Hj Hproto; [done |].
  destruct j as [|j]; simpl.
  - injection Hj as ->. apply forEachHeader_keeps.
    by rewrite assignProperty_lookup_eq.
  - by apply (IH _ _ j).
Qed.

Lemma findColumnHeaders_None (headers : list string) (name : string) :
  findColumnHeaders headers !! name = None ↔
    name = "__proto__"
    ∨ ∀ j header, headers !! j = Some header → trim header ≠ name.
Proof.
  split.
  - intros Hnone. destruct (decide (name = "__proto__")) as [| Hproto]; [by left |].
    right. intros j header Hj Hname. subst name.
    destruct (forEachHeader_finds headers 0 ∅ j header Hj Hproto) as [k Hk].
    unfold findColumnHeaders in Hnone. congruence.
  - intros [-> | Hall]; [apply findColumnHeaders_proto |].
    apply eq_None_not_Some. intros [k Hk].
    apply findColumnHeaders_Some in Hk as (_ & h & Hk & Hname & _).
    by apply (Hall k h).
Qed.

End HeaderIndex.

(** ** The categorisation loop *)

Section Categorisation.
Context `{StringPrototype}.

Lemma categorizeInto_other (i : nat) (rowData : Array) (tags : list string)
    (st : State) (rule : string * list string) (sheetName : string) :
  sheetName ≠ rule.1 →
  outputData (categorizeInto i rowData tags st rule) !! sheetName
    = outputData st !! sheetName
  ∧ processedRowIndicesBySheet (categorizeInto i rowData tags st rule) !! sheetName
    = processedRowIndicesBySheet st !! sheetName.
Proof.
  destruct rule as [name kws]. simpl. intros Hne. unfold categorizeInto.
  destruct (_ && _); simpl; [| done].
  by rewrite !lookup_insert_ne.
Qed.

Lemma categorizeInto_same (i : nat) (rowData : Array) (tags : list string)
    (st : State) (sheetName : string) (kws : list string) :
  i ∉ processedRowIndicesBySheet st !!! sheetName →
  outputData (categorizeInto i rowData tags st (sheetName, kws)) !! sheetName
    = (if matchFound (toLowerCase <$> kws) tags
       then Some (outputData st !!! sheetName ++ [rowData])
       else outputData st !! sheetName)
  ∧ processedRowIndicesBySheet (categorizeInto i rowData tags st (sheetName, kws))
      !! sheetName
    = (if matchFound (toLowerCase <$> kws) tags
       then Some ({[i]} ∪ processedRowIndicesBySheet st !!! sheetName)
       else processedRowIndicesBySheet st !! sheetName).
Proof.
  intros Hfresh. unfold categorizeInto.
  rewrite (bool_decide_eq_false_2 _ Hfresh), andb_true_r.
  destruct (matchFound _ _); simpl; [| done].
  by rewrite !lookup_insert_eq.
Qed.

(** The whole [for ... in] over rules with distinct names: each bucket
    receives the row copy when its rule matches, and nothing else changes. *)
Lemma fold_categorizeInto (i : nat) (rowData : Array) (tags : list string)
    (rules : list (string * list string)) :
  NoDup rules.*1 →
  ∀ st : State,
    (∀ sheetName, sheetName ∈ rules.*1 →
       i ∉ processedRowIndicesBySheet st !!! sheetName) →
    ∀ sheetName,
      outputData (fold_left (categorizeInto i rowData tags) rules st) !! sheetName
        = match (list_to_map rules : gmap string (list string)) !! sheetName with
          | Some kws =>
              if matchFound (toLowerCase <$> kws) tags
              then Some (outputData st !!! sheetName ++ [rowData])
              else outputData st !! sheetName
          | None => outputData st !! sheetName
          end
      ∧ processedRowIndicesBySheet
          (fold_left (categorizeInto i rowData tags) rules st) !! sheetName
        = match (list_to_map rules : gmap string (list string)) !! sheetName with
          | Some kws =>
              if matchFound (toLowerCase <$> kws) tags
              then Some ({[i]} ∪ processedRowIndicesBySheet st !!! sheetName)
              else processedRowIndicesBySheet st !! sheetName
          | None => processedRowIndicesBySheet st !! sheetName
          end.
Proof.
  induction rules as [|[name kws] rules IH]; intros Hnodup st Hfresh sheetName.
  - simpl. by rewrite lookup_empty.
  - apply NoDup_cons in Hnodup as [Hname Hnodup]. simpl in Hname.
    cbn [fold_left]. rewrite list_to_map_cons.
    assert (∀ s, s ≠ name →
      outputData (categorizeInto i rowData tags st (name, kws)) !! s
        = outputData st !! s
      ∧ processedRowIndicesBySheet (categorizeInto i rowData tags st (name, kws)) !! s
        = processedRowIndicesBySheet st !! s) as Hother.
    { intros s Hs. by apply categorizeInto_other. }
    destruct (IH Hnodup (categorizeInto i rowData tags st (name, kws))) with sheetName
      as [IHout IHseen].
    { intros s Hs. assert (s ≠ name) as Hne by (intros ->; done).
      unfold lookup_total, map_lookup_total.
      destruct (Hother s Hne) as [_ ->].
      apply (Hfresh s). by right. }
    rewrite IHout, IHseen. clear IHout IHseen.
    destruct (decide (sheetName = name)) as [->|Hne].
    + rewrite lookup_insert_eq.
      rewrite (not_elem_of_list_to_map_1 _ _ Hname).
      apply categorizeInto_same, Hfresh. by left.
    + rewrite lookup_insert_ne by done.
      destruct (Hother sheetName Hne) as [Hout Hseen].
      unfold lookup_total, map_lookup_total. rewrite Hout, Hseen. done.
Qed.

(** The initialisation gives every rule an empty bucket and an empty set. *)
Lemma fold_initialise (rules : list (string * list string)) :
  ∀ (st : State) (sheetName : string),
    let st' :=
      fold_left
        (fun st '(sheetName, _) =>
           {| outputData := <[sheetName := []]> (outputData st);
              processedRowIndicesBySheet :=
                <[sheetName := ∅]> (processedRowIndicesBySheet st) |})
        rules st in
    outputData st' !! sheetName
      = (if decide (sheetName ∈ rules.*1) then Some [] else outputData st !! sheetName)
    ∧ processedRowIndicesBySheet st' !! sheetName
      = (if decide (sheetName ∈ rules.*1) then Some ∅
         else processedRowIndicesBySheet st !! sheetName).
Proof.
  induction rules as [|[name kws] rules IH]; intros st sheetName; [done |].
  cbn [fold_left fmap list_fmap fst].
  destruct (IH {| outputData := <[name := []]> (outputData st);
                  processedRowIndicesBySheet :=
                    <[name := ∅]> (processedRowIndicesBySheet st) |} sheetName)
    as [-> ->]. cbn [outputData processedRowIndicesBySheet].
  destruct (decide (sheetName ∈ rules.*1)) as [Hin|Hnin].
  - by rewrite !decide_True by (by right).
  - destruct (decide (sheetName = name)) as [->|Hne].
    + rewrite !decide_True by left. by rewrite !lookup_insert_eq.
    + rewrite !decide_False by (intros [?|?]%elem_of_cons; done).
      by rewrite !lookup_insert_ne.
Qed.

End Categorisation.

(** ** The row loop *)

Section RowLoop.
Context `{StringPrototype}.

Lemma NoDup_GROUPING_RULES : NoDup GROUPING_RULES.*1.
Proof. by apply (bool_decide_unpack _); vm_compute. Qed.

Lemma GROUPING_RULES_lookup (sheetName : string) (kws : list string) :
  (sheetName, kws) ∈ GROUPING_RULES ↔
  keywordsOf sheetName = Some kws.
Proof. apply elem_of_list_to_map, NoDup_GROUPING_RULES. Qed.

Lemma initialState_lookup (sheetName : string) :
  outputData initialState !! sheetName
    = (fun _ => []) <$> keywordsOf sheetName
  ∧ processedRowIndicesBySheet initialState !! sheetName
    = (fun _ => ∅) <$> keywordsOf sheetName.
Proof.
  unfold initialState.
  destruct (fold_initialise GROUPING_RULES
              {| outputData := ∅; processedRowIndicesBySheet := ∅ |} sheetName)
    as [-> ->]. cbn [outputData processedRowIndicesBySheet].
  destruct (decide (sheetName ∈ GROUPING_RULES.*1)) as [Hin|Hnin].
  - apply list_elem_of_fmap in Hin as ([name kws] & -> & Hin).
    apply GROUPING_RULES_lookup in Hin. cbn [fst]. by rewrite Hin.
  - unfold keywordsOf. rewrite (not_elem_of_list_to_map_1 _ _ Hnin).
    by rewrite !lookup_empty.
Qed.

Lemma selectedIndices_ge (kws : list string) (outcomes : list RowOutcome) :
  ∀ i j, j ∈ selectedIndices kws i outcomes → i ≤ j.
Proof.
  induction outcomes as [|o rest IH]; intros i j; simpl; [set_solver |].
  intros [Hj | Hj]%elem_of_union.
  - destruct (selected kws o); set_solver.
  - apply IH in Hj. lia.
Qed.

Lemma size_selectedIndices (kws : list string) (outcomes : list RowOutcome) :
  ∀ i, size (selectedIndices kws i outcomes) = length (omap (selected kws) outcomes).
Proof.
  induction outcomes as [|o rest IH]; intros i; simpl; [done |].
  destruct (selected kws o) as [rowData|]; simpl.
  - rewrite size_union, size_singleton, IH; [done |].
    intros j ->%elem_of_singleton Hj. apply selectedIndices_ge in Hj. lia.
  - by rewrite union_empty_l_L, IH.
Qed.

(** The loop over prepared rows: every bucket grows by the copies of the
    rows its rule selects, in row order, and every set by their indices. *)
Lemma processRows_spec (colIndices : gmap string nat)
    (rows : list (list string)) (outcomes : list RowOutcome) :
  Forall2 (fun row outcome => prepareRow colIndices row = Ok outcome) rows outcomes →
  ∀ (i : nat) (st : State),
    (∀ sheetName j, j ∈ processedRowIndicesBySheet st !!! sheetName → j < i) →
    (∀ sheetName,
       is_Some (keywordsOf sheetName) →
       is_Some (outputData st !! sheetName)
       ∧ is_Some (processedRowIndicesBySheet st !! sheetName)) →
    ∃ st', processRows colIndices i rows st = Ok st' ∧
      ∀ sheetName,
        outputData st' !! sheetName
          = match keywordsOf sheetName with
            | Some kws =>
                Some (outputData st !!! sheetName ++ omap (selected kws) outcomes)
            | None => outputData st !! sheetName
            end
        ∧ processedRowIndicesBySheet st' !! sheetName
          = match keywordsOf sheetName with
            | Some kws =>
                Some (processedRowIndicesBySheet st !!! sheetName
                        ∪ selectedIndices kws i outcomes)
            | None => processedRowIndicesBySheet st !! sheetName
            end.
Proof.
  induction 1 as [|row outcome rows outcomes Hrow _ IH]; intros i st Hlt Hkeys.
  - exists st. split; [done |]. intros s.
    destruct (keywordsOf s) as [kws|] eqn:Hrule; [| done].
    destruct (Hkeys s) as [[b Hb] [X HX]]; [by rewrite Hrule |].
    rewrite !lookup_total_alt, Hb, HX. simpl.
    by rewrite app_nil_r, union_empty_r_L.
  - cbn [processRows]. rewrite Hrow. cbn [bind].
    destruct outcome as [|rowData tags].
    + destruct (IH (S i) st) as (st' & Hrun & Hst'); [| done |].
      { intros s j Hj. apply Hlt in Hj. lia. }
      exists st'. split; [done |]. intros s. destruct (Hst' s) as [-> ->].
      destruct (keywordsOf s) as [kws|]; [| done]. simpl.
      by rewrite union_empty_l_L.
    + pose proof (fold_categorizeInto i rowData tags GROUPING_RULES
                    NoDup_GROUPING_RULES st) as Hcat.
      fold (categorize i rowData tags st) in Hcat. fold keywordsOf in Hcat.
      assert (∀ s, outputData (categorize i rowData tags st) !! s
                = match keywordsOf s with
                  | Some kws =>
                      if matchFound (toLowerCase <$> kws) tags
                      then Some (outputData st !!! s ++ [rowData])
                      else outputData st !! s
                  | None => outputData st !! s
                  end
              ∧ processedRowIndicesBySheet (categorize i rowData tags st) !! s
                = match keywordsOf s with
                  | Some kws =>
                      if matchFound (toLowerCase <$> kws) tags
                      then Some ({[i]} ∪ processedRowIndicesBySheet st !!! s)
                      else processedRowIndicesBySheet st !! s
                  | None => processedRowIndicesBySheet st !! s
                  end) as Hcat'.
      { apply Hcat. intros s _ Hi. apply Hlt in Hi. lia. }
      clear Hcat.
      destruct (IH (S i) (categorize i rowData tags st)) as (st' & Hrun & Hst').
      { intros s j. rewrite lookup_total_alt. destruct (Hcat' s) as [_ ->].
        destruct (keywordsOf s) as [kws|]; [destruct (matchFound _ _) |].
        - simpl. intros [->%elem_of_singleton | Hj%Hlt]%elem_of_union; lia.
        - rewrite <- lookup_total_alt. intros Hj%Hlt. lia.
        - rewrite <- lookup_total_alt. intros Hj%Hlt. lia. }
      { intros s Hs. destruct (Hcat' s) as [-> ->].
        destruct (Hkeys s Hs) as [Hb HX]. destruct Hs as [kws ->].
        by destruct (matchFound _ _). }
      exists st'. split; [done |]. intros s. destruct (Hst' s) as [-> ->].
      destruct (keywordsOf s) as [kws|] eqn:Hrule.
      * destruct (Hkeys s) as [[b Hb] [X HX]]; [by rewrite Hrule |].
        rewrite !lookup_total_alt. destruct (Hcat' s) as [-> ->]. rewrite Hrule.
        cbn [omap list_omap selected selectedIndices].
        destruct (matchFound _ _); simpl.
        -- rewrite <- app_assoc. simpl.
           by rewrite (assoc_L (∪)), (comm_L (∪) _ {[i]}).
        -- by rewrite Hb, HX, union_empty_l_L.
      * destruct (Hcat' s) as [-> ->]. by rewrite Hrule.
Qed.

End RowLoop.

(** ** Rows of a valid sheet *)

Section Rows.
Context `{StringPrototype}.

Lemma arrayGet_spread (cells : list string) (k : nat) :
  arrayGet (spread cells) (Some k) = cells !! k.
Proof. simpl. rewrite list_lookup_fmap. by destruct (cells !! k). Qed.

Lemma arraySet_spread (cells : list string) (k : nat) (v : string) :
  k < length cells →
  arraySet (spread cells) (Some k) v = spread (<[k := v]> cells).
Proof.
  intros Hk. unfold arraySet, spread. cbn [elements undefinedProperty].
  rewrite length_fmap, decide_True by done. by rewrite list_fmap_insert.
Qed.

Lemma length_overwrite (k : nat) (v : string) (cells : list string) :
  length (overwrite k v cells) = length cells.
Proof. unfold overwrite. case_decide; [apply length_insert | done]. Qed.

Lemma overwrite_lookup_ne (k j : nat) (v : string) (cells : list string) :
  k ≠ j → overwrite k v cells !! j = cells !! j.
Proof.
  intros Hne. unfold overwrite. case_decide; [| done].
  by apply list_lookup_insert_ne.
Qed.

Lemma overwrite_lookup_eq (k : nat) (v : string) (cells : list string) :
  v ≠ EmptyString → k < length cells → overwrite k v cells !! k = Some v.
Proof.
  intros Hv Hk. unfold overwrite. rewrite decide_True by done.
  by apply list_lookup_insert_eq.
Qed.

Lemma findColumnHeaders_lt (headers : list string) (name : string) (k : nat) :
  findColumnHeaders headers !! name = Some k → k < length headers.
Proof.
  intros (_ & h & Hk & _)%findColumnHeaders_Some. by apply lookup_lt_Some in Hk.
Qed.

Lemma findColumnHeaders_inj (headers : list string) (name name' : string) (k : nat) :
  findColumnHeaders headers !! name = Some k →
  findColumnHeaders headers !! name' = Some k →
  name = name'.
Proof.
  intros (_ & h & Hk & <- & _)%findColumnHeaders_Some
         (_ & h' & Hk' & <- & _)%findColumnHeaders_Some.
  congruence.
Qed.

(** What the guard of the caller and the shape of a data range give. *)
Lemma validSheet_inv (headers : list string) (rows : list (list string)) :
  validSheet (headers :: rows) = true →
  Forall (fun row => length row = length headers) rows
  ∧ ∃ p a u t q, Resolved (findColumnHeaders headers) (length headers) p a u t q.
Proof.
  unfold validSheet. rewrite andb_true_iff. intros [Hrows Hcols]. split.
  - apply Forall_forall. intros row Hrow.
    rewrite forallb_forall in Hrows. eapply bool_decide_eq_true_1, Hrows.
    by apply list_elem_of_In.
  - cbn [forallb requiredCols] in Hcols.
    rewrite !andb_true_iff, !bool_decide_eq_true in Hcols.
    destruct Hcols as ([p Hp] & [a Ha] & [u Hu] & [t Ht] & [q Hq] & _).
    exists p, a, u, t, q. split; try done.
    + repeat constructor; by eapply findColumnHeaders_lt.
    + assert (∀ n n' k k', findColumnHeaders headers !! n = Some k →
                findColumnHeaders headers !! n' = Some k' → n ≠ n' → k ≠ k') as Hne.
      { intros n n' k k' Hk Hk' Hn ->. by destruct Hn, (findColumnHeaders_inj _ _ _ _ Hk Hk'). }
      repeat constructor; rewrite ?not_elem_of_cons; split_and?;
        try apply not_elem_of_nil;
        (eapply Hne; [eassumption | eassumption | done]).
Qed.

Lemma validSheet_cons (headers row : list string) (rows : list (list string)) :
  validSheet (headers :: row :: rows) = true ↔
  length row = length headers ∧ validSheet (headers :: rows) = true.
Proof.
  unfold validSheet. cbn [forallb].
  rewrite !andb_true_iff, bool_decide_eq_true. tauto.
Qed.

Lemma validSheet_app (headers : list string) (rows rows' : list (list string)) :
  validSheet (headers :: rows ++ rows') = true ↔
  validSheet (headers :: rows) = true ∧ validSheet (headers :: rows') = true.
Proof.
  unfold validSheet. rewrite forallb_app, !andb_true_iff. tauto.
Qed.

(** *** The stages of the loop body on a row of a valid sheet *)

Section Stages.
Context (colIndices : gmap string nat) (width p a u t q : nat).
Context (Hcols : Resolved colIndices width p a u t q).

Lemma publicableValue_spread (cells : list string) (c : string) :
  cells !! p = Some c →
  publicableValue colIndices (spread cells) = Ok (toUpperCase (trim c)).
Proof.
  intros Hc. unfold publicableValue.
  by rewrite (resolved_publicable _ _ _ _ _ _ _ Hcols), arrayGet_spread, Hc.
Qed.

Lemma finalEtiquetaString_spread (cells : list string) (c : string) :
  cells !! t = Some c →
  finalEtiquetaString colIndices (spread cells) = Ok (trim c).
Proof.
  intros Hc. unfold finalEtiquetaString.
  by rewrite (resolved_original _ _ _ _ _ _ _ Hcols), arrayGet_spread, Hc.
Qed.

Lemma transformRow_spread (cells : list string) (cu cq : string) :
  length cells = width →
  cells !! u = Some cu →
  cells !! q = Some cq →
  transformRow colIndices (spread cells)
    = Ok (spread (overwrite t (trim cq) (overwrite a (trim cu) cells))).
Proof.
  intros Hlen Hu Hq. destruct Hcols as [_ Ha Hu' Ht Hq' Hwidth Hdistinct].
  assert (a < width ∧ t < width) as [Ha_lt Ht_lt].
  { rewrite !Forall_cons in Hwidth. tauto. }
  assert (a ≠ q) as Haq.
  { intros ->. apply NoDup_cons in Hdistinct as [_ Hdistinct].
    apply NoDup_cons in Hdistinct as [Hnin _]. set_solver. }
  unfold transformRow. rewrite Hu', Ha, Hq', Ht, arrayGet_spread, Hu. cbn [toString bind].
  assert ((if decide (trim cu ≠ EmptyString)
           then arraySet (spread cells) (Some a) (trim cu)
           else spread cells) = spread (overwrite a (trim cu) cells)) as ->.
  { unfold overwrite. case_decide; [| done]. apply arraySet_spread. lia. }
  rewrite arrayGet_spread, overwrite_lookup_ne, Hq by done. cbn [toString bind].
  f_equal.
  assert (length (overwrite a (trim cu) cells) = width) as Hlen'
    by (by rewrite length_overwrite).
  revert Hlen'. generalize (overwrite a (trim cu) cells). intros cells' Hlen'.
  unfold overwrite. case_decide; [| done]. apply arraySet_spread. lia.
Qed.

(** No read of the loop body fails on a row as wide as the header row. *)
Lemma prepareRow_total (cells : list string) :
  length cells = width → ∃ outcome, prepareRow colIndices cells = Ok outcome.
Proof.
  intros Hlen.
  assert (p < width ∧ u < width ∧ t < width ∧ q < width) as (Hp & Hu & Ht & Hq).
  { pose proof (resolved_width _ _ _ _ _ _ _ Hcols) as Hwidth.
    rewrite !Forall_cons in Hwidth. tauto. }
  destruct (lookup_lt_is_Some_2 cells p) as [cp Hcp]; [lia |].
  destruct (lookup_lt_is_Some_2 cells u) as [cu Hcu]; [lia |].
  destruct (lookup_lt_is_Some_2 cells q) as [cq Hcq]; [lia |].
  destruct (lookup_lt_is_Some_2 (overwrite t (trim cq) (overwrite a (trim cu) cells)) t)
    as [ct Hct]; [rewrite !length_overwrite; lia |].
  unfold prepareRow.
  rewrite (publicableValue_spread _ _ Hcp). cbn [bind].
  case_decide; [by eexists |].
  rewrite (transformRow_spread _ _ _ Hlen Hcu Hcq). cbn [bind].
  rewrite (finalEtiquetaString_spread _ _ Hct). cbn [bind].
  repeat case_decide; by eexists.
Qed.

End Stages.

Lemma validSheet_prepared (headers : list string) (rows : list (list string)) :
  validSheet (headers :: rows) = true →
  ∃ outcomes,
    Forall2 (fun row outcome => prepareRow (findColumnHeaders headers) row = Ok outcome)
      rows outcomes.
Proof.
  intros [Hrows (p & a & u & t & q & Hcols)]%validSheet_inv.
  induction Hrows as [|row rows Hrow _ [outcomes IH]]; [by exists [] |].
  destruct (prepareRow_total _ _ _ _ _ _ _ Hcols row Hrow) as [outcome Houtcome].
  exists (outcome :: outcomes). by constructor.
Qed.

(** *** The buckets of a sheet whose rows all prepare *)

Lemma processData_prepared (colIndices : gmap string nat) (headers : list string)
    (rows : list (list string)) (outcomes : list RowOutcome) :
  Forall2 (fun row outcome => prepareRow colIndices row = Ok outcome) rows outcomes →
  ∃ st, processRows colIndices 1 rows initialState = Ok st ∧
    processData (headers :: rows) colIndices = Ok (outputData st) ∧
    ∀ sheetName,
      outputData st !! sheetName
        = (fun kws => omap (selected kws) outcomes) <$> keywordsOf sheetName
      ∧ processedRowIndicesBySheet st !! sheetName
        = (fun kws => selectedIndices kws 1 outcomes) <$> keywordsOf sheetName.
Proof.
  intros Hprepared.
  destruct (processRows_spec colIndices rows outcomes Hprepared 1 initialState)
    as (st & Hrun & Hst).
  - intros s j. rewrite lookup_total_alt.
    destruct (initialState_lookup s) as [_ ->].
    destruct (keywordsOf s); simpl; set_solver.
  - intros s [kws Hkws]. destruct (initialState_lookup s) as [-> ->].
    by rewrite Hkws.
  - exists st. split; [done |]. split.
    + unfold processData. change (drop 1 (headers :: rows)) with rows.
      by rewrite Hrun.
    + intros s. destruct (Hst s) as [-> ->]. rewrite !lookup_total_alt.
      destruct (initialState_lookup s) as [-> ->].
      destruct (keywordsOf s) as [kws|]; simpl; [| done].
      by rewrite union_empty_l_L.
Qed.

Lemma bucketOf_prepared (colIndices : gmap string nat) (headers : list string)
    (rows : list (list string)) (outcomes : list RowOutcome) (sheetName : string) :
  Forall2 (fun row outcome => prepareRow colIndices row = Ok outcome) rows outcomes →
  bucketOf (processData (headers :: rows) colIndices) sheetName
    = (fun kws => omap (selected kws) outcomes) <$> keywordsOf sheetName.
Proof.
  intros (st & _ & -> & Hst)%(processData_prepared _ headers).
  apply Hst.
Qed.

End Rows.

(** ** Buckets of a sheet from the buckets of its parts *)

Section Buckets.
Context `{StringPrototype}.

Lemma prepared_app_inv (colIndices : gmap string nat)
    (rows rows' : list (list string)) (outcomes : list RowOutcome) :
  Forall2 (fun row outcome => prepareRow colIndices row = Ok outcome)
    (rows ++ rows') outcomes →
  ∃ outcomes1 outcomes2, outcomes = outcomes1 ++ outcomes2 ∧
    Forall2 (fun row outcome => prepareRow colIndices row = Ok outcome) rows outcomes1 ∧
    Forall2 (fun row outcome => prepareRow colIndices row = Ok outcome) rows' outcomes2.
Proof.
  intros (o1 & o2 & H1 & H2 & ->)%Forall2_app_inv_l. by exists o1, o2.
Qed.

(** The bucket of a sheet is the bucket of its first rows followed by the
    bucket of its last rows. *)
Lemma bucketOf_app (headers : list string) (rows rows' : list (list string))
    (sheetName : string) (kws : list string) :
  validSheet (headers :: rows ++ rows') = true →
  keywordsOf sheetName = Some kws →
  ∃ b b',
    bucketOf (processData (headers :: rows) (findColumnHeaders headers)) sheetName
      = Some b ∧
    bucketOf (processData (headers :: rows') (findColumnHeaders headers)) sheetName
      = Some b' ∧
    bucketOf (processData (headers :: rows ++ rows') (findColumnHeaders headers)) sheetName
      = Some (b ++ b').
Proof.
  intros [outcomes Hprepared]%validSheet_prepared Hkws.
  destruct (prepared_app_inv _ _ _ _ Hprepared) as (o1 & o2 & -> & H1 & H2).
  exists (omap (selected kws) o1), (omap (selected kws) o2).
  rewrite (bucketOf_prepared _ _ _ _ _ H1), (bucketOf_prepared _ _ _ _ _ H2),
    (bucketOf_prepared _ _ _ _ _ Hprepared), Hkws. simpl.
  by rewrite omap_app.
Qed.

(** The bucket of a sheet with one data row. *)
Lemma bucketOf_single (colIndices : gmap string nat) (headers row : list string)
    (outcome : RowOutcome) (sheetName : string) (kws : list string) :
  prepareRow colIndices row = Ok outcome →
  keywordsOf sheetName = Some kws →
  bucketOf (processData [headers; row] colIndices) sheetName
    = Some (option_list (selected kws outcome)).
Proof.
  intros Hrow Hkws.
  rewrite (bucketOf_prepared colIndices headers [row] [outcome]), Hkws.
  - simpl. by destruct (selected kws outcome).
  - by repeat constructor.
Qed.

(** The bucket of a sheet around one of its rows. *)
Lemma bucketOf_around (headers : list string) (before : list (list string))
    (row : list string) (after : list (list string))
    (sheetName : string) (kws : list string) :
  validSheet (headers :: before ++ row :: after) = true →
  keywordsOf sheetName = Some kws →
  ∃ b1 e b2,
    bucketOf (processData (headers :: before) (findColumnHeaders headers)) sheetName
      = Some b1 ∧
    bucketOf (processData [headers; row] (findColumnHeaders headers)) sheetName
      = Some e ∧
    bucketOf (processData (headers :: after) (findColumnHeaders headers)) sheetName
      = Some b2 ∧
    bucketOf (processData (headers :: before ++ row :: after) (findColumnHeaders headers))
      sheetName = Some (b1 ++ e ++ b2).
Proof.
  intros Hvalid Hkws.
  destruct (bucketOf_app headers before (row :: after) sheetName kws Hvalid Hkws)
    as (b1 & b' & Hb1 & Hb' & Hall).
  apply validSheet_app in Hvalid as [_ Hvalid].
  destruct (bucketOf_app headers [row] after sheetName kws Hvalid Hkws)
    as (e & b2 & He & Hb2 & Hall').
  exists b1, e, b2. simpl in Hall'. rewrite Hall' in Hb'. by injection Hb' as <-.
Qed.

(** A row that is skipped can be deleted from the sheet: the classifier
    returns, and returns the same buckets. *)
Lemma processData_delete_skipped (headers : list string) (before : list (list string))
    (row : list string) (after : list (list string)) :
  validSheet (headers :: before ++ row :: after) = true →
  prepareRow (findColumnHeaders headers) row = Ok Skipped →
  ∃ outputData,
    processData (headers :: before ++ row :: after) (findColumnHeaders headers)
      = Ok outputData ∧
    processData (headers :: before ++ after) (findColumnHeaders headers)
      = Ok outputData.
Proof.
  intros Hvalid Hrow.
  destruct (validSheet_prepared _ _ Hvalid) as [outcomes Hprepared].
  destruct (prepared_app_inv _ _ _ _ Hprepared) as (o1 & o2 & -> & H1 & H2).
  inversion H2 as [|? outcome ? o2' Hrow' H2' ]; subst.
  assert (outcome = Skipped) as -> by congruence.
  assert (Forall2 (fun row outcome =>
            prepareRow (findColumnHeaders headers) row = Ok outcome)
            (before ++ after) (o1 ++ o2')) as Hprepared'
    by by apply Forall2_app.
  destruct (processData_prepared _ headers _ _ Hprepared) as (st & _ & -> & Hst).
  destruct (processData_prepared _ headers _ _ Hprepared') as (st' & _ & -> & Hst').
  exists (outputData st). split; [done |]. f_equal. apply map_eq. intros s.
  destruct (Hst s) as [-> _], (Hst' s) as [-> _].
  destruct (keywordsOf s) as [kws|]; [| done]. simpl.
  by rewrite !omap_app.
Qed.

(** A skipped row alone leaves every bucket empty. *)
Lemma bucketOf_skipped (colIndices : gmap string nat) (headers row : list string)
    (sheetName : string) (bucket : list Array) :
  prepareRow colIndices row = Ok Skipped →
  bucketOf (processData [headers; row] colIndices) sheetName = Some bucket →
  bucket = [].
Proof.
  intros Hrow.
  rewrite (bucketOf_prepared colIndices headers [row] [Skipped])
    by by repeat constructor.
  destruct (keywordsOf sheetName); simpl; congruence.
Qed.

(** The loop only looks at a row through [prepareRow]. *)
Lemma processRows_ext (colIndices : gmap string nat) (before : list (list string))
    (row row' : list string) (after : list (list string)) :
  prepareRow colIndices row' = prepareRow colIndices row →
  ∀ i st,
    processRows colIndices i (before ++ row' :: after) st
      = processRows colIndices i (before ++ row :: after) st.
Proof.
  intros Hsame. induction before as [|r before IH]; intros i st; simpl.
  - by rewrite Hsame.
  - destruct (prepareRow colIndices r) as [[|rowData tags]|]; simpl; [apply IH.. | done].
Qed.

Lemma elem_of_selectedIndices (kws : list string) (outcomes : list RowOutcome) :
  ∀ i j,
    j ∈ selectedIndices kws i outcomes ↔
    ∃ k outcome, j = i + k ∧ outcomes !! k = Some outcome
                 ∧ is_Some (selected kws outcome).
Proof.
  induction outcomes as [|o rest IH]; intros i j; simpl.
  - split; [set_solver | by intros (k & ? & _ & ? & _)].
  - rewrite elem_of_union, IH. split.
    + intros [Hj | (k & o' & -> & Hk & Hsel)].
      * destruct (selected kws o) eqn:Ho; [| set_solver].
        apply elem_of_singleton in Hj as ->. exists 0, o.
        split_and!; [lia | done | by rewrite Ho].
      * exists (S k), o'. split_and!; [lia | done | done].
    + intros ([|k] & o' & -> & Hk & Hsel).
      * left. injection Hk as <-. destruct Hsel as [x ->].
        apply elem_of_singleton. lia.
      * right. exists k, o'. split_and!; [lia | done | done].
Qed.

End Buckets.

(** ** Splitting the tag string *)

Lemma split_not_nil (sep : ascii) (s : string) : split sep s ≠ [].
Proof.
  destruct s as [|c s]; simpl; [done |].
  case_decide; [done |]. by destruct (split sep s).
Qed.

(** Joining the pieces with the separator gives the string back. *)
Lemma concat_split (sep : ascii) (s : string) :
  String.concat (String sep EmptyString) (split sep s) = s.
Proof.
  induction s as [|c s IH]; simpl; [done |].
  pose proof (split_not_nil sep s) as Hnil.
  destruct (split sep s) as [|piece pieces]; [done |].
  case_decide as Hc.
  - subst c. by rewrite <- IH.
  - rewrite <- IH. by destruct pieces.
Qed.

(** No piece contains the separator. *)
Lemma split_pieces (sep : ascii) (s : string) :
  ∀ piece, piece ∈ split sep s →
    ∀ before after, piece ≠ before +:+ String sep after.
Proof.
  induction s as [|c s IH]; intros piece Hpiece before after; simpl in Hpiece.
  - apply list_elem_of_singleton in Hpiece as ->. by destruct before.
  - case_decide as Hc.
    + apply elem_of_cons in Hpiece as [-> | Hpiece]; [by destruct before |].
      by apply IH.
    + pose proof (split_not_nil sep s) as Hnil.
      destruct (split sep s) as [|piece0 pieces]; [done |].
      apply elem_of_cons in Hpiece as [-> | Hpiece].
      * destruct before as [|b before].
        -- rewrite append_empty. congruence.
        -- rewrite append_String. intros [= _ Hpiece0].
           by apply (IH piece0 ltac:(left) before after).
      * apply IH. by right.
Qed.

(** ** The loop body, stage by stage *)

Section LoopBody.
Context `{StringPrototype}.

Lemma matchFound_true (keywords tags : list string) :
  matchFound keywords tags = true ↔
  ∃ keyword tag, keyword ∈ keywords ∧ tag ∈ tags ∧ includes tag keyword = true.
Proof.
  unfold matchFound. rewrite existsb_exists. split.
  - intros (tag & Htag & (keyword & Hkeyword & Hincl)%existsb_exists).
    exists keyword, tag. by rewrite !list_elem_of_In.
  - intros (keyword & tag & Hkeyword & Htag & Hincl).
    exists tag. rewrite <- list_elem_of_In. split; [done |].
    apply existsb_exists. exists keyword. by rewrite <- list_elem_of_In.
Qed.

(** A rule matches when one of its keywords, lower-cased, is a substring of
    one of the tags. *)
Lemma matchFound_substring (kws tags : list string) :
  matchFound (toLowerCase <$> kws) tags = true ↔
  ∃ keyword tag before after,
    keyword ∈ kws ∧ tag ∈ tags ∧ tag = before +:+ toLowerCase keyword +:+ after.
Proof.
  rewrite matchFound_true. split.
  - intros (lowered & tag & (keyword & -> & Hkeyword)%list_elem_of_fmap & Htag
            & (before & after & Hsub)%includes_true).
    by exists keyword, tag, before, after.
  - intros (keyword & tag & before & after & Hkeyword & Htag & Hsub).
    exists (toLowerCase keyword), tag. split_and!; [| done |].
    + apply list_elem_of_fmap. by exists keyword.
    + apply includes_true. by exists before, after.
Qed.

Lemma prepareRow_stages (colIndices : gmap string nat) (row : list string)
    (publicable : string) (rowData : Array) (etiqueta : string) :
  publicableValue colIndices (spread row) = Ok publicable →
  publicable ≠ "NO" →
  transformRow colIndices (spread row) = Ok rowData →
  finalEtiquetaString colIndices rowData = Ok etiqueta →
  toLowerCase etiqueta ≠ toLowerCase EXCLUDED_TAG →
  prepareRow colIndices row
    = Ok (if decide (parseTags etiqueta = [])
          then Skipped else Parsed rowData (parseTags etiqueta)).
Proof.
  intros Hpublicable Hyes Htransform Hfinal Hkept. unfold prepareRow.
  rewrite Hpublicable. cbn [bind]. rewrite decide_False by done.
  rewrite Htransform. cbn [bind]. rewrite Hfinal. cbn [bind].
  rewrite decide_False by done.
  destruct (parseTags etiqueta) as [|tag tags]; [done |].
  by rewrite decide_False.
Qed.

Lemma prepareRow_excluded (colIndices : gmap string nat) (row : list string)
    (publicable : string) (rowData : Array) (etiqueta : string) :
  publicableValue colIndices (spread row) = Ok publicable →
  transformRow colIndices (spread row) = Ok rowData →
  finalEtiquetaString colIndices rowData = Ok etiqueta →
  toLowerCase etiqueta = toLowerCase EXCLUDED_TAG →
  prepareRow colIndices row = Ok Skipped.
Proof.
  intros Hpublicable Htransform Hfinal Hexcluded. unfold prepareRow.
  rewrite Hpublicable. cbn [bind]. case_decide; [done |].
  rewrite Htransform. cbn [bind]. rewrite Hfinal. cbn [bind].
  by rewrite decide_True.
Qed.

(** The row copy that reaches the categorisation, cell by cell. *)
Lemma prepareRow_Parsed (colIndices : gmap string nat) (width p a u t q : nat)
    (cells : list string) (rowData : Array) (tags : list string) :
  Resolved colIndices width p a u t q →
  length cells = width →
  prepareRow colIndices cells = Ok (Parsed rowData tags) →
  ∃ cu cq, cells !! u = Some cu ∧ cells !! q = Some cq ∧
    rowData = spread (overwrite t (trim cq) (overwrite a (trim cu) cells)).
Proof.
  intros Hcols Hlen Hrow.
  assert (p < width ∧ u < width ∧ q < width) as (Hp & Hu & Hq).
  { pose proof (resolved_width _ _ _ _ _ _ _ Hcols) as Hwidth.
    rewrite !Forall_cons in Hwidth. tauto. }
  destruct (lookup_lt_is_Some_2 cells p) as [cp Hcp]; [lia |].
  destruct (lookup_lt_is_Some_2 cells u) as [cu Hcu]; [lia |].
  destruct (lookup_lt_is_Some_2 cells q) as [cq Hcq]; [lia |].
  exists cu, cq. split_and!; [done.. |].
  unfold prepareRow in Hrow.
  rewrite (publicableValue_spread _ _ _ _ _ _ _ Hcols _ _ Hcp) in Hrow.
  cbn [bind] in Hrow. case_decide; [done |].
  rewrite (transformRow_spread _ _ _ _ _ _ _ Hcols _ _ _ Hlen Hcu Hcq) in Hrow.
  cbn [bind] in Hrow.
  destruct (finalEtiquetaString _ _) as [etiqueta|]; [| done]. cbn [bind] in Hrow.
  repeat case_decide; congruence.
Qed.

Lemma publicableValue_valid (headers : list string) (rows : list (list string))
    (row : list string) :
  validSheet (headers :: rows) = true →
  row ∈ rows →
  ∃ publicable,
    publicableValue (findColumnHeaders headers) (spread row) = Ok publicable.
Proof.
  intros [Hrows (p & a & u & t & q & Hcols)]%validSheet_inv Hrow.
  rewrite Forall_forall in Hrows. specialize (Hrows row Hrow).
  destruct (lookup_lt_is_Some_2 row p) as [cp Hcp].
  { pose proof (resolved_width _ _ _ _ _ _ _ Hcols) as Hwidth.
    rewrite !Forall_cons in Hwidth. lia. }
  exists (toUpperCase (trim cp)).
  by apply (publicableValue_spread _ _ _ _ _ _ _ Hcols).
Qed.

Lemma processData_valid (headers : list string) (rows : list (list string)) :
  validSheet (headers :: rows) = true →
  ∃ outputData, processData (headers :: rows) (findColumnHeaders headers) = Ok outputData.
Proof.
  intros [outcomes Hprepared]%validSheet_prepared.
  destruct (processData_prepared _ headers _ _ Hprepared) as (st & _ & Hst & _).
  by exists (outputData st).
Qed.

Lemma overwrite_insert (a t : nat) (v v' original : string) (cells : list string) :
  v ≠ EmptyString → a ≠ t →
  overwrite t v (overwrite a v' (<[t := original]> cells))
    = overwrite t v (overwrite a v' cells).
Proof.
  intros Hv Hat. unfold overwrite. repeat case_decide; try done.
  - by rewrite (list_insert_insert_ne _ a t), list_insert_insert_eq.
  - by rewrite list_insert_insert_eq.
Qed.

(** With a proposed tag, the loop body does not depend on the original-tag
    cell of the source row. *)
Lemma prepareRow_original_irrelevant (colIndices : gmap string nat)
    (width p a u t q : nat) (cells : list string) (cq original : string) :
  Resolved colIndices width p a u t q →
  length cells = width →
  cells !! q = Some cq →
  trim cq ≠ EmptyString →
  prepareRow colIndices (<[t := original]> cells) = prepareRow colIndices cells.
Proof.
  intros Hcols Hlen Hcq Hnonempty.
  assert (p < width ∧ u < width) as (Hp & Hu).
  { pose proof (resolved_width _ _ _ _ _ _ _ Hcols) as Hwidth.
    rewrite !Forall_cons in Hwidth. tauto. }
  assert (t ≠ p ∧ a ≠ t ∧ t ≠ u ∧ t ≠ q) as (Htp & Hat & Htu & Htq).
  { pose proof (resolved_distinct _ _ _ _ _ _ _ Hcols) as Hdistinct.
    rewrite !NoDup_cons, !not_elem_of_cons in Hdistinct.
    split_and!; intros ->; tauto. }
  destruct (lookup_lt_is_Some_2 cells p) as [cp Hcp]; [lia |].
  destruct (lookup_lt_is_Some_2 cells u) as [cu Hcu]; [lia |].
  unfold prepareRow.
  rewrite (publicableValue_spread _ _ _ _ _ _ _ Hcols cells cp Hcp).
  rewrite (publicableValue_spread _ _ _ _ _ _ _ Hcols (<[t := original]> cells) cp)
    by by rewrite list_lookup_insert_ne.
  rewrite (transformRow_spread _ _ _ _ _ _ _ Hcols cells cu cq Hlen Hcu Hcq).
  rewrite (transformRow_spread _ _ _ _ _ _ _ Hcols (<[t := original]> cells) cu cq)
    by (by rewrite ?length_insert, ?list_lookup_insert_ne).
  by rewrite overwrite_insert.
Qed.

End LoopBody.

(** ** The validation of the required columns *)

Lemma firstMissing_Some (colIndices : gmap string nat) (cols : list string)
    (colName : string) :
  firstMissing colIndices cols = Some colName ↔
  ∃ present later, cols = present ++ colName :: later
    ∧ Forall (fun c => is_Some (colIndices !! c)) present
    ∧ colIndices !! colName = None.
Proof.
  induction cols as [|c cols IH]; simpl.
  - split; [done | by intros ([|??] & ? & ? & _)].
  - case_decide as Hc.
    + split.
      * intros [= <-]. by exists [], cols.
      * intros ([|c' present] & later & Hcols & Hpresent & Hnone).
        -- by injection Hcols as -> _.
        -- injection Hcols as -> _. apply Forall_cons in Hpresent as [[k Hk] _].
           congruence.
    + rewrite IH. split.
      * intros (present & later & -> & Hpresent & Hnone).
        exists (c :: present), later. split_and!; [done | | done].
        constructor; [| done]. by apply not_eq_None_Some.
      * intros ([|c' present] & later & Hcols & Hpresent & Hnone).
        -- injection Hcols as -> _. done.
        -- injection Hcols as -> ->. apply Forall_cons in Hpresent as [_ Hpresent].
           by exists present, later.
Qed.

Lemma firstMissing_None (colIndices : gmap string nat) (cols : list string) :
  firstMissing colIndices cols = None ↔
  ∀ colName, colName ∈ cols → is_Some (colIndices !! colName).
Proof.
  induction cols as [|c cols IH]; simpl.
  - split; [intros _ ? ?%elem_of_nil; done | done].
  - case_decide as Hc.
    + split; [done |]. intros Hall. destruct (Hall c) as [k Hk]; [by left | congruence].
    + rewrite IH. split.
      * intros Hall colName [-> | Hin]%elem_of_cons; [by apply not_eq_None_Some | auto].
      * intros Hall colName Hin. apply Hall. by right.
Qed.

(** * The claims *)

Section Claims.
Context `{StringPrototype}.

(** C3: a data row whose publishable cell, trimmed and upper-cased, is "NO"
    is skipped at the first test of the loop body and contributes to no
    bucket: the classifier returns the buckets it returns for the sheet
    without that row, and the row alone leaves every bucket empty. *)
Theorem publish_filter_excludes_row
    (headers : list string) (before : list (list string)) (row : list string)
    (after : list (list string)) (p : nat) (cell : string) :
  validSheet (headers :: before ++ row :: after) = true →
  findColumnHeaders headers !! PUBLICABLE_COL_NAME = Some p →
  row !! p = Some cell →
  toUpperCase (trim cell) = "NO" →
  prepareRow (findColumnHeaders headers) row = Ok Skipped
  ∧ (∃ outputData,
       processData (headers :: before ++ row :: after) (findColumnHeaders headers)
         = Ok outputData
       ∧ processData (headers :: before ++ after) (findColumnHeaders headers)
         = Ok outputData)
  ∧ (∀ sheetName kws, keywordsOf sheetName = Some kws →
       bucketOf (processData [headers; row] (findColumnHeaders headers)) sheetName
         = Some []).
Proof.
  intros Hvalid Hp Hcell Hno.
  assert (prepareRow (findColumnHeaders headers) row = Ok Skipped) as Hskip.
  { unfold prepareRow, publicableValue.
    rewrite Hp, arrayGet_spread, Hcell. cbn [toString bind].
    by rewrite decide_True. }
  split_and!; [done | by apply processData_delete_skipped |].
  intros sheetName kws Hkws. by rewrite (bucketOf_single _ _ _ _ _ _ Hskip Hkws).
Qed.

(** C2: a row whose final tag string (read from the original-tag cell of the
    row copy after the overwrites, trimmed) has the lower case of the
    excluded tag is skipped and contributes to no bucket.  The comparison is
    on the whole string: a row whose final tag string differs from the
    excluded tag goes on to the categorisation even when the excluded tag is
    one of its tags, as the row tagged "Ingreso;Sedes" does on the sample
    sheet, where it lands in FAQ_Ingresantes. *)
Theorem excluded_tag_is_compared_whole :
  (∀ (headers : list string) (before : list (list string)) (row : list string)
     (after : list (list string)) (rowData : Array) (etiqueta : string),
     validSheet (headers :: before ++ row :: after) = true →
     transformRow (findColumnHeaders headers) (spread row) = Ok rowData →
     finalEtiquetaString (findColumnHeaders headers) rowData = Ok etiqueta →
     toLowerCase etiqueta = toLowerCase EXCLUDED_TAG →
     prepareRow (findColumnHeaders headers) row = Ok Skipped
     ∧ (∃ outputData,
          processData (headers :: before ++ row :: after) (findColumnHeaders headers)
            = Ok outputData
          ∧ processData (headers :: before ++ after) (findColumnHeaders headers)
            = Ok outputData)
     ∧ (∀ sheetName kws, keywordsOf sheetName = Some kws →
          bucketOf (processData [headers; row] (findColumnHeaders headers)) sheetName
            = Some []))
  ∧ (∀ (colIndices : gmap string nat) (row : list string) (publicable : string)
       (rowData : Array) (etiqueta : string),
       publicableValue colIndices (spread row) = Ok publicable →
       publicable ≠ "NO" →
       transformRow colIndices (spread row) = Ok rowData →
       finalEtiquetaString colIndices rowData = Ok etiqueta →
       toLowerCase etiqueta ≠ toLowerCase EXCLUDED_TAG →
       toLowerCase EXCLUDED_TAG ∈ parseTags etiqueta →
       prepareRow colIndices row = Ok (Parsed rowData (parseTags etiqueta)))
  ∧ (finalEtiquetaString (H := BasicLatin.host) Sample.colIndices
       (spread Sample.ingresoSedes) = Ok "Ingreso;Sedes"
     ∧ prepareRow (H := BasicLatin.host) Sample.colIndices Sample.ingresoSedes
       = Ok (Parsed (spread Sample.ingresoSedes) ["ingreso"; "sedes"])
     ∧ bucketOf (Sample.classify [Sample.ingresoSedes]) "FAQ_Ingresantes"
       = Some [spread Sample.ingresoSedes]).
Proof.
  split_and!.
  - intros headers before row after rowData etiqueta Hvalid Htransform Hfinal Hexcluded.
    destruct (publicableValue_valid headers (before ++ row :: after) row Hvalid)
      as [publicable Hpublicable]; [set_solver |].
    pose proof (prepareRow_excluded _ _ _ _ _ Hpublicable Htransform Hfinal Hexcluded)
      as Hskip.
    split_and!; [done | by apply processData_delete_skipped |].
    intros sheetName kws Hkws. by rewrite (bucketOf_single _ _ _ _ _ _ Hskip Hkws).
  - intros colIndices row publicable rowData etiqueta
      Hpublicable Hyes Htransform Hfinal Hkept Htag.
    rewrite (prepareRow_stages _ _ _ _ _ Hpublicable Hyes Htransform Hfinal Hkept).
    rewrite decide_False; [done |]. intros Hnil. rewrite Hnil in Htag. set_solver.
  - by vm_compute.
  - by vm_compute.
  - by vm_compute.
Qed.

(** C6: for a row that reaches the tag parsing, the final tag string is cut
    at every separator (the pieces joined by the separator give the string
    back and no piece contains one), every piece is trimmed and lower-cased,
    and the empty results are dropped; the row goes on with these tags when
    there is at least one, and is skipped and contributes to no bucket when
    there is none. *)
Theorem tags_are_parsed_or_row_is_excluded
    (headers : list string) (before : list (list string)) (row : list string)
    (after : list (list string)) (publicable : string) (rowData : Array)
    (etiqueta : string) :
  validSheet (headers :: before ++ row :: after) = true →
  publicableValue (findColumnHeaders headers) (spread row) = Ok publicable →
  publicable ≠ "NO" →
  transformRow (findColumnHeaders headers) (spread row) = Ok rowData →
  finalEtiquetaString (findColumnHeaders headers) rowData = Ok etiqueta →
  toLowerCase etiqueta ≠ toLowerCase EXCLUDED_TAG →
  String.concat (String TAG_SEPARATOR EmptyString) (split TAG_SEPARATOR etiqueta)
    = etiqueta
  ∧ (∀ piece, piece ∈ split TAG_SEPARATOR etiqueta →
       ∀ b c, piece ≠ b +:+ String TAG_SEPARATOR c)
  ∧ (∀ tag, tag ∈ parseTags etiqueta ↔
       tag ≠ EmptyString ∧
       ∃ piece, piece ∈ split TAG_SEPARATOR etiqueta ∧ tag = toLowerCase (trim piece))
  ∧ (parseTags etiqueta ≠ [] →
       prepareRow (findColumnHeaders headers) row
         = Ok (Parsed rowData (parseTags etiqueta)))
  ∧ (parseTags etiqueta = [] →
       prepareRow (findColumnHeaders headers) row = Ok Skipped
       ∧ (∃ outputData,
            processData (headers :: before ++ row :: after) (findColumnHeaders headers)
              = Ok outputData
            ∧ processData (headers :: before ++ after) (findColumnHeaders headers)
              = Ok outputData)
       ∧ (∀ sheetName kws, keywordsOf sheetName = Some kws →
            bucketOf (processData [headers; row] (findColumnHeaders headers)) sheetName
              = Some [])).
Proof.
  intros Hvalid Hpublicable Hyes Htransform Hfinal Hkept.
  pose proof (prepareRow_stages _ _ _ _ _ Hpublicable Hyes Htransform Hfinal Hkept)
    as Hrow.
  split_and!.
  - apply concat_split.
  - apply split_pieces.
  - intros tag. unfold parseTags. rewrite list_elem_of_filter, list_elem_of_fmap.
    split; intros [Htag (piece & Hpiece & Hin)]; (split; [done | by exists piece]).
  - intros Hsome. by rewrite decide_False in Hrow.
  - intros Hnone. rewrite decide_True in Hrow by done.
    split_and!; [done | by apply processData_delete_skipped |].
    intros sheetName kws Hkws. by rewrite (bucketOf_single _ _ _ _ _ _ Hrow Hkws).
Qed.

(** C1: for a row that passes the publish filter and the exclusion check,
    and for every rule, the row copy is in the bucket of the rule, between
    the entries of the rows before it and those of the rows after it, when
    some keyword of the rule, lower-cased, is a substring of some tag of the
    row; otherwise the bucket has the entries of the other rows only.  Each
    rule is tested on its own keywords. *)
Theorem row_in_bucket_iff_keyword_in_tag
    (headers : list string) (before : list (list string)) (row : list string)
    (after : list (list string)) (publicable : string) (rowData : Array)
    (etiqueta : string) (sheetName : string) (kws : list string) :
  validSheet (headers :: before ++ row :: after) = true →
  publicableValue (findColumnHeaders headers) (spread row) = Ok publicable →
  publicable ≠ "NO" →
  transformRow (findColumnHeaders headers) (spread row) = Ok rowData →
  finalEtiquetaString (findColumnHeaders headers) rowData = Ok etiqueta →
  toLowerCase etiqueta ≠ toLowerCase EXCLUDED_TAG →
  keywordsOf sheetName = Some kws →
  ∃ b1 b2,
    bucketOf (processData (headers :: before) (findColumnHeaders headers)) sheetName
      = Some b1
    ∧ bucketOf (processData (headers :: after) (findColumnHeaders headers)) sheetName
      = Some b2
    ∧ ((∃ keyword tag b c,
          keyword ∈ kws ∧ tag ∈ parseTags etiqueta
          ∧ tag = b +:+ toLowerCase keyword +:+ c) →
       bucketOf (processData (headers :: before ++ row :: after)
                   (findColumnHeaders headers)) sheetName
         = Some (b1 ++ rowData :: b2))
    ∧ (¬ (∃ keyword tag b c,
            keyword ∈ kws ∧ tag ∈ parseTags etiqueta
            ∧ tag = b +:+ toLowerCase keyword +:+ c) →
       bucketOf (processData (headers :: before ++ row :: after)
                   (findColumnHeaders headers)) sheetName
         = Some (b1 ++ b2)).
Proof.
  intros Hvalid Hpublicable Hyes Htransform Hfinal Hkept Hkws.
  pose proof (prepareRow_stages _ _ _ _ _ Hpublicable Hyes Htransform Hfinal Hkept)
    as Hrow.
  destruct (bucketOf_around headers before row after sheetName kws Hvalid Hkws)
    as (b1 & e & b2 & Hb1 & He & Hb2 & Hall).
  rewrite (bucketOf_single _ _ _ _ _ _ Hrow Hkws) in He. injection He as <-.
  exists b1, b2. split_and!; [done | done | |]; rewrite <- matchFound_substring;
    intros Hmatch; rewrite Hall; do 2 f_equal.
  - case_decide as Htags; simpl.
    + rewrite Htags in Hmatch. by apply matchFound_true in Hmatch as (?&?&?&?%elem_of_nil&?).
    + by rewrite Hmatch.
  - case_decide; simpl; [done |]. by apply not_true_is_false in Hmatch as ->.
Qed.

(** C4: when the updated-answer cell of a data row is not empty after
    trimming, every copy of the row that a bucket holds has the trimmed
    updated answer in its answer column, whatever the answer cell was.  The
    entries of the other rows are those the classifier gives without the
    row: the overwrite touches the copy of this row only. *)
Theorem updated_answer_replaces_answer
    (headers : list string) (before : list (list string)) (row : list string)
    (after : list (list string)) (a u : nat) (updated : string)
    (sheetName : string) (kws : list string) :
  validSheet (headers :: before ++ row :: after) = true →
  findColumnHeaders headers !! RESPUESTA_COL_NAME = Some a →
  findColumnHeaders headers !! RESPUESTA_ACT_COL_NAME = Some u →
  row !! u = Some updated →
  trim updated ≠ EmptyString →
  keywordsOf sheetName = Some kws →
  ∃ b1 e b2,
    bucketOf (processData (headers :: before) (findColumnHeaders headers)) sheetName
      = Some b1
    ∧ bucketOf (processData [headers; row] (findColumnHeaders headers)) sheetName
      = Some e
    ∧ bucketOf (processData (headers :: after) (findColumnHeaders headers)) sheetName
      = Some b2
    ∧ bucketOf (processData (headers :: before ++ row :: after)
                  (findColumnHeaders headers)) sheetName
      = Some (b1 ++ e ++ b2)
    ∧ ∀ rowData, rowData ∈ e → arrayGet rowData (Some a) = Some (trim updated).
Proof.
  intros Hvalid Ha Hu Hupdated Hnonempty Hkws.
  destruct (bucketOf_around headers before row after sheetName kws Hvalid Hkws)
    as (b1 & e & b2 & Hb1 & He & Hb2 & Hall).
  exists b1, e, b2. split_and!; [done.. |].
  intros rowData HrowData.
  destruct (validSheet_inv _ _ Hvalid) as [Hrows (p & a' & u' & t & q & Hcols)].
  rewrite Forall_forall in Hrows.
  assert (length row = length headers) as Hlen by (apply Hrows; set_solver).
  assert (a' = a) as ->
    by (pose proof (resolved_respuesta _ _ _ _ _ _ _ Hcols); congruence).
  assert (u' = u) as ->
    by (pose proof (resolved_actualizada _ _ _ _ _ _ _ Hcols); congruence).
  destruct (prepareRow_total _ _ _ _ _ _ _ Hcols row Hlen) as [outcome Hrow].
  rewrite (bucketOf_single _ _ _ _ _ _ Hrow Hkws) in He. injection He as <-.
  destruct outcome as [|rowData' tags]; simpl in HrowData; [set_solver |].
  destruct (matchFound _ _); simpl in HrowData; [| set_solver].
  apply list_elem_of_singleton in HrowData as ->.
  destruct (prepareRow_Parsed _ _ _ _ _ _ _ _ _ _ Hcols Hlen Hrow)
    as (cu & cq & Hcu & Hcq & ->).
  assert (cu = updated) as -> by congruence.
  assert (a < length headers ∧ t ≠ a) as [Ha_lt Hta].
  { pose proof (resolved_width _ _ _ _ _ _ _ Hcols) as Hwidth.
    pose proof (resolved_distinct _ _ _ _ _ _ _ Hcols) as Hdistinct.
    rewrite !Forall_cons in Hwidth.
    rewrite !NoDup_cons, !not_elem_of_cons in Hdistinct.
    split; [tauto | intros ->; tauto]. }
  rewrite arrayGet_spread, overwrite_lookup_ne by done.
  apply overwrite_lookup_eq; [done | lia].
Qed.

(** C5: when the proposed-tag cell of a data row is not empty after
    trimming, the original-tag column of the row copy holds the trimmed
    proposed tag and the final tag string is read from it.  The loop body
    then decides on that string: the row is skipped when it is not
    publishable, when the string has the lower case of the excluded tag, or
    when it gives no tag, and goes on with the tags parsed from it
    otherwise; for every rule the copy is in the bucket exactly when the row
    is kept and a keyword of the rule is in one of these tags.  The
    original-tag cell of the source row has no influence on what the
    classifier returns. *)
Theorem proposed_tag_replaces_original_tag
    (headers : list string) (before : list (list string)) (row : list string)
    (after : list (list string)) (t q : nat) (proposed : string) :
  validSheet (headers :: before ++ row :: after) = true →
  findColumnHeaders headers !! ETIQUETA_ORIG_COL_NAME = Some t →
  findColumnHeaders headers !! ETIQUETA_PROP_COL_NAME = Some q →
  row !! q = Some proposed →
  trim proposed ≠ EmptyString →
  ∃ publicable rowData,
    publicableValue (findColumnHeaders headers) (spread row) = Ok publicable
    ∧ transformRow (findColumnHeaders headers) (spread row) = Ok rowData
    ∧ arrayGet rowData (Some t) = Some (trim proposed)
    ∧ finalEtiquetaString (findColumnHeaders headers) rowData
      = Ok (trim (trim proposed))
    ∧ prepareRow (findColumnHeaders headers) row
      = Ok (if decide (publicable = "NO") then Skipped
            else if decide (toLowerCase (trim (trim proposed))
                            = toLowerCase EXCLUDED_TAG) then Skipped
            else if decide (parseTags (trim (trim proposed)) = []) then Skipped
            else Parsed rowData (parseTags (trim (trim proposed))))
    ∧ (∀ sheetName kws,
         keywordsOf sheetName = Some kws →
         ∃ b1 b2,
           bucketOf (processData (headers :: before) (findColumnHeaders headers))
             sheetName = Some b1
           ∧ bucketOf (processData (headers :: after) (findColumnHeaders headers))
               sheetName = Some b2
           ∧ (publicable ≠ "NO" →
              toLowerCase (trim (trim proposed)) ≠ toLowerCase EXCLUDED_TAG →
              (∃ keyword tag b c,
                 keyword ∈ kws ∧ tag ∈ parseTags (trim (trim proposed))
                 ∧ tag = b +:+ toLowerCase keyword +:+ c) →
              bucketOf (processData (headers :: before ++ row :: after)
                          (findColumnHeaders headers)) sheetName
                = Some (b1 ++ rowData :: b2))
           ∧ (publicable = "NO"
              ∨ toLowerCase (trim (trim proposed)) = toLowerCase EXCLUDED_TAG
              ∨ ¬ (∃ keyword tag b c,
                     keyword ∈ kws ∧ tag ∈ parseTags (trim (trim proposed))
                     ∧ tag = b +:+ toLowerCase keyword +:+ c) →
              bucketOf (processData (headers :: before ++ row :: after)
                          (findColumnHeaders headers)) sheetName
                = Some (b1 ++ b2)))
    ∧ (∃ outputData,
         processData (headers :: before ++ row :: after) (findColumnHeaders headers)
           = Ok outputData
         ∧ ∀ original,
             processData (headers :: before ++ <[t := original]> row :: after)
               (findColumnHeaders headers) = Ok outputData).
Proof.
  intros Hvalid Ht Hq Hproposed Hnonempty.
  destruct (validSheet_inv _ _ Hvalid) as [Hrows (p & a & u & t' & q' & Hcols)].
  rewrite Forall_forall in Hrows.
  assert (length row = length headers) as Hlen by (apply Hrows; set_solver).
  assert (t' = t) as ->
    by (pose proof (resolved_original _ _ _ _ _ _ _ Hcols); congruence).
  assert (q' = q) as ->
    by (pose proof (resolved_propuesta _ _ _ _ _ _ _ Hcols); congruence).
  assert (p < length headers ∧ u < length headers ∧ t < length headers)
    as (Hp & Hu & Ht_lt).
  { pose proof (resolved_width _ _ _ _ _ _ _ Hcols) as Hwidth.
    rewrite !Forall_cons in Hwidth. tauto. }
  destruct (lookup_lt_is_Some_2 row p) as [cp Hcp]; [lia |].
  destruct (lookup_lt_is_Some_2 row u) as [cu Hcu]; [lia |].
  pose proof (publicableValue_spread _ _ _ _ _ _ _ Hcols _ _ Hcp) as Hpublicable.
  pose proof (transformRow_spread _ _ _ _ _ _ _ Hcols _ _ _ Hlen Hcu Hproposed)
    as Htransform.
  assert (overwrite t (trim proposed) (overwrite a (trim cu) row) !! t
            = Some (trim proposed)) as Hcell.
  { apply overwrite_lookup_eq; [done |]. rewrite length_overwrite. lia. }
  pose proof (finalEtiquetaString_spread _ _ _ _ _ _ _ Hcols _ _ Hcell) as Hfinal.
  set (rowData := spread (overwrite t (trim proposed) (overwrite a (trim cu) row)))
    in *.
  set (publicable := toUpperCase (trim cp)) in *.
  set (etiqueta := trim (trim proposed)) in *.
  assert (prepareRow (findColumnHeaders headers) row
          = Ok (if decide (publicable = "NO") then Skipped
                else if decide (toLowerCase etiqueta = toLowerCase EXCLUDED_TAG)
                     then Skipped
                else if decide (parseTags etiqueta = []) then Skipped
                else Parsed rowData (parseTags etiqueta))) as Hrow.
  { unfold prepareRow. rewrite Hpublicable. cbn [bind].
    case_decide; [done |]. rewrite Htransform. cbn [bind].
    rewrite Hfinal. cbn [bind]. case_decide; [done |].
    destruct (parseTags etiqueta) as [|tag tags]; [done |].
    by rewrite decide_False. }
  exists publicable, rowData. split_and!; [done | done | | done | done | |].
  - unfold rowData. by rewrite arrayGet_spread.
  - intros sheetName kws Hkws.
    destruct (bucketOf_around headers before row after sheetName kws Hvalid Hkws)
      as (b1 & e & b2 & Hb1 & He & Hb2 & Hall).
    rewrite (bucketOf_single _ _ _ _ _ _ Hrow Hkws) in He. injection He as <-.
    exists b1, b2. split_and!; [done | done | |].
    + intros Hyes Hkept Hmatch. apply matchFound_substring in Hmatch.
      rewrite Hall. do 2 f_equal.
      rewrite !decide_False; [| | done | done].
      * simpl. by rewrite Hmatch.
      * intros Hnil. rewrite Hnil in Hmatch.
        by apply matchFound_true in Hmatch as (?&?&?&?%elem_of_nil&?).
    + intros Hout. rewrite Hall. do 2 f_equal.
      repeat case_decide; try done. simpl.
      destruct (matchFound (toLowerCase <$> kws) (parseTags etiqueta)) eqn:Hmatch;
        [| done].
      apply matchFound_substring in Hmatch. tauto.
  - destruct (processData_valid _ _ Hvalid) as [outputData HoutputData].
    exists outputData. split; [done |]. intros original.
    rewrite <- HoutputData. unfold processData.
    change (drop 1 (headers :: ?rows)) with rows.
    by rewrite (processRows_ext _ before row (<[t := original]> row) after
                  (prepareRow_original_irrelevant _ _ _ _ _ _ _ _ _ _
                     Hcols Hlen Hproposed Hnonempty)).
Qed.

(** C7: a data row adds at most one entry to the bucket of a rule, however
    many keywords and tags match: the bucket is the entries of the rows
    before it, at most one copy of the row, and the entries of the rows after
    it.  The set of row indices kept for the bucket has one index per entry,
    and holds the index of the row exactly when the bucket holds its copy. *)
Theorem row_is_in_bucket_at_most_once
    (headers : list string) (before : list (list string)) (row : list string)
    (after : list (list string)) (sheetName : string) (kws : list string) :
  validSheet (headers :: before ++ row :: after) = true →
  keywordsOf sheetName = Some kws →
  ∃ b1 e b2,
    bucketOf (processData (headers :: before) (findColumnHeaders headers)) sheetName
      = Some b1
    ∧ bucketOf (processData [headers; row] (findColumnHeaders headers)) sheetName
      = Some e
    ∧ bucketOf (processData (headers :: after) (findColumnHeaders headers)) sheetName
      = Some b2
    ∧ bucketOf (processData (headers :: before ++ row :: after)
                  (findColumnHeaders headers)) sheetName
      = Some (b1 ++ e ++ b2)
    ∧ length e ≤ 1
    ∧ ∃ st indices,
        processRows (findColumnHeaders headers) 1 (before ++ row :: after) initialState
          = Ok st
        ∧ outputData st !! sheetName = Some (b1 ++ e ++ b2)
        ∧ processedRowIndicesBySheet st !! sheetName = Some indices
        ∧ size indices = length (b1 ++ e ++ b2)
        ∧ (S (length before) ∈ indices ↔ e ≠ []).
Proof.
  intros Hvalid Hkws.
  destruct (validSheet_prepared _ _ Hvalid) as [outcomes Hprepared].
  destruct (prepared_app_inv _ _ _ _ Hprepared) as (o1 & o' & -> & H1 & H').
  inversion H' as [|? outcome ? o2 Hrow H2]; subst.
  exists (omap (selected kws) o1), (option_list (selected kws outcome)),
    (omap (selected kws) o2).
  assert (omap (selected kws) (o1 ++ outcome :: o2)
          = omap (selected kws) o1 ++ option_list (selected kws outcome)
            ++ omap (selected kws) o2) as Homap.
  { rewrite omap_app. simpl. by destruct (selected kws outcome). }
  split_and!.
  - by rewrite (bucketOf_prepared _ _ _ _ _ H1), Hkws.
  - by apply bucketOf_single.
  - by rewrite (bucketOf_prepared _ _ _ _ _ H2), Hkws.
  - rewrite (bucketOf_prepared _ _ _ _ _ Hprepared), Hkws. simpl. by rewrite Homap.
  - destruct (selected kws outcome); simpl; lia.
  - destruct (processData_prepared _ headers _ _ Hprepared) as (st & Hrun & _ & Hst).
    exists st, (selectedIndices kws 1 (o1 ++ outcome :: o2)).
    destruct (Hst sheetName) as [Hout Hseen]. rewrite Hkws in Hout, Hseen.
    split_and!; [done | by rewrite Hout; simpl; rewrite Homap | done | |].
    + by rewrite size_selectedIndices, Homap.
    + rewrite elem_of_selectedIndices.
      pose proof (Forall2_length _ _ _ H1) as Hlen. split.
      * intros (k & o & Hk & Ho & Hsel). assert (k = length o1) as -> by lia.
        rewrite list_lookup_middle in Ho by done. injection Ho as <-.
        by destruct Hsel as [rowData ->].
      * intros He. exists (length o1), outcome.
        split_and!; [lia | by apply list_lookup_middle |].
        by destruct (selected kws outcome).
Qed.

(** C8: the entries of a bucket are in the order of their rows in the source
    sheet: when both of two rows are in the bucket of a rule, the copy of the
    earlier row precedes the copy of the later row, with the entries of the
    rows in between in between. *)
Theorem bucket_keeps_source_order
    (headers : list string) (rows1 : list (list string)) (row_i : list string)
    (rows2 : list (list string)) (row_j : list string) (rows3 : list (list string))
    (sheetName : string) (kws : list string) (copy_i copy_j : Array) :
  validSheet (headers :: rows1 ++ row_i :: rows2 ++ row_j :: rows3) = true →
  keywordsOf sheetName = Some kws →
  bucketOf (processData [headers; row_i] (findColumnHeaders headers)) sheetName
    = Some [copy_i] →
  bucketOf (processData [headers; row_j] (findColumnHeaders headers)) sheetName
    = Some [copy_j] →
  ∃ b1 b2 b3,
    bucketOf (processData (headers :: rows1) (findColumnHeaders headers)) sheetName
      = Some b1
    ∧ bucketOf (processData (headers :: rows2) (findColumnHeaders headers)) sheetName
      = Some b2
    ∧ bucketOf (processData (headers :: rows3) (findColumnHeaders headers)) sheetName
      = Some b3
    ∧ bucketOf (processData (headers :: rows1 ++ row_i :: rows2 ++ row_j :: rows3)
                  (findColumnHeaders headers)) sheetName
      = Some (b1 ++ copy_i :: b2 ++ copy_j :: b3).
Proof.
  intros Hvalid Hkws Hi Hj.
  destruct (bucketOf_around headers rows1 row_i (rows2 ++ row_j :: rows3)
              sheetName kws Hvalid Hkws)
    as (b1 & e_i & b' & Hb1 & He_i & Hb' & Hall).
  apply validSheet_app in Hvalid as [_ Hvalid].
  apply validSheet_cons in Hvalid as [_ Hvalid].
  destruct (bucketOf_around headers rows2 row_j rows3 sheetName kws Hvalid Hkws)
    as (b2 & e_j & b3 & Hb2 & He_j & Hb3 & Hall').
  exists b1, b2, b3. split_and!; [done.. |].
  rewrite Hall. f_equal.
  assert (e_i = [copy_i]) as -> by congruence.
  assert (e_j = [copy_j]) as -> by congruence.
  assert (b' = b2 ++ [copy_j] ++ b3) as -> by congruence.
  done.
Qed.

(** C9: on a sheet with at least one data row, when a required column name
    has no entry in the header index (no cell of the first row trims to it),
    the run stops with the alert that names the first such column, and
    nothing is classified; when the five names have an entry, the run goes
    on to classify the sheet with that index.  A name has no entry exactly
    when no header cell trims to it; the one other name without an entry
    is [__proto__], which is not a required name. *)
Theorem missing_required_column_aborts (principalData : list (list string)) :
  2 ≤ length principalData →
  let headers := default [] (principalData !! 0) in
  let colIndices := findColumnHeaders headers in
  (∀ colName,
     colIndices !! colName = None ↔
     colName = "__proto__" ∨ ∀ header, header ∈ headers → trim header ≠ colName)
  ∧ (∀ colName, colName ∈ requiredCols →
       (colIndices !! colName = None ↔
        ∀ header, header ∈ headers → trim header ≠ colName))
  ∧ ((∃ colName, colName ∈ requiredCols ∧ colIndices !! colName = None) →
     ∃ present colName later,
       requiredCols = present ++ colName :: later
       ∧ (∀ c, c ∈ present → is_Some (colIndices !! c))
       ∧ colIndices !! colName = None
       ∧ processAndCreateSheetsAndDocs (Some principalData)
         = Alert (missingColumnAlert colName)
       ∧ includes (missingColumnAlert colName) colName = true)
  ∧ ((∀ colName, colName ∈ requiredCols → is_Some (colIndices !! colName)) →
     processAndCreateSheetsAndDocs (Some principalData)
       = Classified (processData principalData colIndices)).
Proof.
  intros Hlen headers colIndices.
  assert (∀ colName,
            colIndices !! colName = None ↔
            colName = "__proto__"
            ∨ ∀ header, header ∈ headers → trim header ≠ colName) as Hindex.
  { intros colName. unfold colIndices. rewrite findColumnHeaders_None. split.
    - intros [-> | Hnone]; [by left | right].
      intros header [j Hj]%list_elem_of_lookup. by apply (Hnone j).
    - intros [-> | Hnone]; [by left | right].
      intros j header Hj. apply Hnone, list_elem_of_lookup. by exists j. }
  split_and!.
  - exact Hindex.
  - intros colName HcolName. rewrite Hindex. split; [| by right].
    intros [-> | Hnone]; [| done].
    repeat (apply elem_of_cons in HcolName as [HcolName | HcolName];
            [discriminate HcolName |]).
    by apply elem_of_nil in HcolName.
  - intros (missing & Hrequired & Hmissing).
    destruct (firstMissing colIndices requiredCols) as [colName|] eqn:Hfirst.
    + pose proof Hfirst as (present & later & Hcols & Hpresent & Hnone)%firstMissing_Some.
      exists present, colName, later. split_and!; [done | | done | |].
      * by apply Forall_forall.
      * unfold processAndCreateSheetsAndDocs. rewrite decide_False by lia.
        fold headers. fold colIndices. by rewrite Hfirst.
      * apply includes_true.
        exists ("Error: No se encontró la columna " +:+ quote),
          (quote +:+ " en la hoja " +:+ quote +:+ PRINCIPAL_SHEET_NAME +:+ quote +:+ ".").
        done.
    + rewrite firstMissing_None in Hfirst.
      destruct (Hfirst missing Hrequired) as [k Hk]. congruence.
  - intros Hall. apply firstMissing_None in Hall.
    unfold processAndCreateSheetsAndDocs. rewrite decide_False by lia.
    fold headers. fold colIndices. by rewrite Hall.
Qed.


End Claims.

(** * The claims on the sample sheet *)

Lemma publish_filter_excludes_row_witness :
  Sample.classify [Sample.beca; Sample.notPublished; Sample.examen]
    = Sample.classify [Sample.beca; Sample.examen].
Proof.
  destruct (publish_filter_excludes_row (H := BasicLatin.host)
              Sample.headers [Sample.beca] Sample.notPublished [Sample.examen]
              0 " no ")
    as (_ & (outputData & Hwith & Hwithout) & _);
    [vm_compute; reflexivity | vm_compute; reflexivity | reflexivity
    | vm_compute; reflexivity |].
  unfold Sample.classify, Sample.colIndices.
  exact (eq_trans Hwith (eq_sym Hwithout)).
Defined.

(** The row tagged "Inscripción abierta; Varios temas" is in the buckets of
    the two rules it matches, once in each, and in no other. *)
Lemma row_in_bucket_iff_keyword_in_tag_witness :
  bucketOf (Sample.classify [Sample.twoRules]) "FAQ_Ingresantes"
    = Some [spread Sample.twoRules]
  ∧ bucketOf (Sample.classify [Sample.twoRules]) "FAQ_Preguntas_frecuentes_generales"
    = Some [spread Sample.twoRules]
  ∧ bucketOf (Sample.classify [Sample.twoRules]) "FAQ_Alumnos_Examen" = Some [].
Proof.
  pose proof (row_in_bucket_iff_keyword_in_tag (H := BasicLatin.host)
                Sample.headers [] Sample.twoRules [] "SI" (spread Sample.twoRules)
                "Inscripción abierta; Varios temas") as Hrule.
  split_and!.
  - destruct (Hrule "FAQ_Ingresantes"
                ["Ingreso"; "Ingresantes"; "Art. 7"; "Inscripción"; "Beca"; "CIVU"])
      as (b1 & b2 & Hb1 & Hb2 & Hin & _);
      [vm_compute; reflexivity | vm_compute; reflexivity | vm_compute; discriminate
      | vm_compute; reflexivity | vm_compute; reflexivity | vm_compute; discriminate
      | vm_compute; reflexivity |].
    vm_compute in Hb1, Hb2. injection Hb1 as <-. injection Hb2 as <-.
    apply Hin. exists "Inscripción", "inscripción abierta", "", " abierta".
    split_and!; [| | reflexivity].
    + do 3 right. left.
    + vm_compute. left.
  - destruct (Hrule "FAQ_Preguntas_frecuentes_generales"
                ["Oferta Académica"; "Postgrados"; "Cursos"; "FAQ"; "Varios"])
      as (b1 & b2 & Hb1 & Hb2 & Hin & _);
      [vm_compute; reflexivity | vm_compute; reflexivity | vm_compute; discriminate
      | vm_compute; reflexivity | vm_compute; reflexivity | vm_compute; discriminate
      | vm_compute; reflexivity |].
    vm_compute in Hb1, Hb2. injection Hb1 as <-. injection Hb2 as <-.
    apply Hin. exists "Varios", "varios temas", "", " temas".
    split_and!; [| | reflexivity].
    + do 4 right. left.
    + vm_compute. right. left.
  - destruct (Hrule "FAQ_Alumnos_Examen" ["Alumno"; "Examen"])
      as (b1 & b2 & Hb1 & Hb2 & _ & Hout);
      [vm_compute; reflexivity | vm_compute; reflexivity | vm_compute; discriminate
      | vm_compute; reflexivity | vm_compute; reflexivity | vm_compute; discriminate
      | vm_compute; reflexivity |].
    vm_compute in Hb1, Hb2. injection Hb1 as <-. injection Hb2 as <-.
    apply Hout. rewrite <- (matchFound_substring (H := BasicLatin.host)).
    vm_compute. discriminate.
Defined.

(** The row whose proposed tag is " sedes " can be deleted from the sheet. *)
Lemma excluded_tag_is_compared_whole_witness :
  Sample.classify [Sample.beca; Sample.sedes; Sample.examen]
    = Sample.classify [Sample.beca; Sample.examen].
Proof.
  destruct (proj1 (excluded_tag_is_compared_whole (H := BasicLatin.host))
              Sample.headers [Sample.beca] Sample.sedes [Sample.examen]
              (spread ["SI"; "r"; ""; "sedes"; " sedes "]) "sedes")
    as (_ & (outputData & Hwith & Hwithout) & _);
    [vm_compute; reflexivity | vm_compute; reflexivity | vm_compute; reflexivity
    | vm_compute; reflexivity |].
  unfold Sample.classify, Sample.colIndices.
  exact (eq_trans Hwith (eq_sym Hwithout)).
Defined.

(** The row with the updated answer "new answer" is in FAQ_Ingresantes with
    that answer. *)
Lemma updated_answer_replaces_answer_witness :
  ∃ rowData,
    bucketOf (Sample.classify [Sample.beca]) "FAQ_Ingresantes" = Some [rowData]
    ∧ arrayGet rowData (Some 1) = Some "new answer".
Proof.
  destruct (updated_answer_replaces_answer (H := BasicLatin.host)
              Sample.headers [] Sample.beca [] 1 2 "new answer" "FAQ_Ingresantes"
              ["Ingreso"; "Ingresantes"; "Art. 7"; "Inscripción"; "Beca"; "CIVU"])
    as (b1 & e & b2 & _ & He & _ & _ & Hanswer);
    [vm_compute; reflexivity | vm_compute; reflexivity | vm_compute; reflexivity
    | reflexivity | vm_compute; discriminate | vm_compute; reflexivity |].
  exists (spread ["SI"; "new answer"; "new answer"; "Beca"; ""]).
  assert (e = [spread ["SI"; "new answer"; "new answer"; "Beca"; ""]]) as ->.
  { vm_compute in He. by injection He as <-. }
  split; [exact He | apply Hanswer; left].
Defined.

(** The row with the original tag "Cursos" and the proposed tag
    "Examen final" is in FAQ_Alumnos_Examen, with the proposed tag in its
    original-tag column, and not in FAQ_Preguntas_frecuentes_generales,
    whose keyword "Cursos" its original tag has; it is classified the same
    whatever its original tag. *)
Lemma proposed_tag_replaces_original_tag_witness :
  bucketOf (Sample.classify [Sample.examen]) "FAQ_Alumnos_Examen"
    = Some [spread ["SI"; "r"; ""; "Examen final"; "Examen final"]]
  ∧ bucketOf (Sample.classify [Sample.examen]) "FAQ_Preguntas_frecuentes_generales"
    = Some []
  ∧ Sample.classify [<[3 := "Sedes"]> Sample.examen]
    = Sample.classify [Sample.examen].
Proof.
  destruct (proposed_tag_replaces_original_tag (H := BasicLatin.host)
              Sample.headers [] Sample.examen [] 3 4 "Examen final")
    as (publicable & rowData & Hpublicable & Htransform & _ & _ & _ & Hrules
        & outputData & Hrun & Hany);
    [vm_compute; reflexivity | vm_compute; reflexivity | vm_compute; reflexivity
    | reflexivity | vm_compute; discriminate |].
  vm_compute in Hpublicable. injection Hpublicable as <-.
  vm_compute in Htransform. injection Htransform as <-.
  split_and!.
  - destruct (Hrules "FAQ_Alumnos_Examen" ["Alumno"; "Examen"])
      as (b1 & b2 & Hb1 & Hb2 & Hin & _); [vm_compute; reflexivity |].
    vm_compute in Hb1, Hb2. injection Hb1 as <-. injection Hb2 as <-.
    apply Hin; [discriminate | vm_compute; discriminate |].
    exists "Examen", "examen final", "", " final".
    split_and!; [right; left | vm_compute; left | reflexivity].
  - destruct (Hrules "FAQ_Preguntas_frecuentes_generales"
                ["Oferta Académica"; "Postgrados"; "Cursos"; "FAQ"; "Varios"])
      as (b1 & b2 & Hb1 & Hb2 & _ & Hout); [vm_compute; reflexivity |].
    vm_compute in Hb1, Hb2. injection Hb1 as <-. injection Hb2 as <-.
    apply Hout. right. right.
    rewrite <- (matchFound_substring (H := BasicLatin.host)).
    vm_compute. discriminate.
  - unfold Sample.classify, Sample.colIndices.
    exact (eq_trans (Hany "Sedes") (eq_sym Hrun)).
Defined.

(** The row tagged " ; ;" has no tag and can be deleted from the sheet. *)
Lemma tags_are_parsed_or_row_is_excluded_witness :
  Sample.classify [Sample.beca; Sample.noTags] = Sample.classify [Sample.beca].
Proof.
  destruct (tags_are_parsed_or_row_is_excluded (H := BasicLatin.host)
              Sample.headers [Sample.beca] Sample.noTags [] "SI"
              (spread Sample.noTags) "; ;")
    as (_ & _ & _ & _ & Hnone);
    [vm_compute; reflexivity | vm_compute; reflexivity | vm_compute; discriminate
    | vm_compute; reflexivity | vm_compute; reflexivity | vm_compute; discriminate |].
  destruct Hnone as (_ & (outputData & Hwith & Hwithout) & _);
    [vm_compute; reflexivity |].
  unfold Sample.classify, Sample.colIndices.
  exact (eq_trans Hwith (eq_sym Hwithout)).
Defined.

(** The row tagged "Ingreso;Ingresantes", whose two tags match keywords of
    FAQ_Ingresantes, is in that bucket once. *)
Lemma row_is_in_bucket_at_most_once_witness :
  ∃ e,
    bucketOf (Sample.classify [Sample.twoKeywords]) "FAQ_Ingresantes" = Some e
    ∧ e = [spread Sample.twoKeywords]
    ∧ length e ≤ 1.
Proof.
  destruct (row_is_in_bucket_at_most_once (H := BasicLatin.host)
              Sample.headers [] Sample.twoKeywords [] "FAQ_Ingresantes"
              ["Ingreso"; "Ingresantes"; "Art. 7"; "Inscripción"; "Beca"; "CIVU"])
    as (b1 & e & b2 & _ & He & _ & _ & Hlength & _);
    [vm_compute; reflexivity | vm_compute; reflexivity |].
  exists e. split_and!; [exact He | | exact Hlength].
  vm_compute in He. by injection He as <-.
Defined.

(** Two rows of FAQ_Ingresantes with a skipped row between them. *)
Lemma bucket_keeps_source_order_witness :
  bucketOf (Sample.classify [Sample.beca; Sample.notPublished; Sample.twoKeywords])
    "FAQ_Ingresantes"
  = Some [ spread ["SI"; "new answer"; "new answer"; "Beca"; ""];
           spread Sample.twoKeywords ].
Proof.
  destruct (bucket_keeps_source_order (H := BasicLatin.host)
              Sample.headers [] Sample.beca [Sample.notPublished] Sample.twoKeywords []
              "FAQ_Ingresantes"
              ["Ingreso"; "Ingresantes"; "Art. 7"; "Inscripción"; "Beca"; "CIVU"]
              (spread ["SI"; "new answer"; "new answer"; "Beca"; ""])
              (spread Sample.twoKeywords))
    as (b1 & b2 & b3 & Hb1 & Hb2 & Hb3 & Hall);
    [vm_compute; reflexivity | vm_compute; reflexivity | vm_compute; reflexivity
    | vm_compute; reflexivity |].
  vm_compute in Hb1, Hb2, Hb3.
  injection Hb1 as <-. injection Hb2 as <-. injection Hb3 as <-.
  exact Hall.
Defined.

(** A sheet without the updated-answer column stops at the validation; the
    sample sheet is classified. *)
Lemma missing_required_column_aborts_witness :
  (∃ colName,
     processAndCreateSheetsAndDocs (H := BasicLatin.host)
       (Some [["Publicable"; "Respuesta"]; ["SI"; "r"]])
     = Alert (missingColumnAlert colName))
  ∧ processAndCreateSheetsAndDocs (H := BasicLatin.host)
      (Some [Sample.headers; Sample.beca])
    = Classified (Sample.classify [Sample.beca]).
Proof.
  split.
  - destruct (missing_required_column_aborts (H := BasicLatin.host)
                [["Publicable"; "Respuesta"]; ["SI"; "r"]])
      as (_ & _ & Hmissing & _); [simpl; lia |].
    destruct Hmissing as (present & colName & later & _ & _ & _ & Halert & _).
    + exists RESPUESTA_ACT_COL_NAME. split; [do 2 right; left | vm_compute; reflexivity].
    + by exists colName.
  - destruct (missing_required_column_aborts (H := BasicLatin.host)
                [Sample.headers; Sample.beca])
      as (_ & _ & _ & Hpresent); [simpl; lia |].
    apply Hpresent. intros colName HcolName.
    repeat (apply elem_of_cons in HcolName as [-> | HcolName];
            [vm_compute; eauto |]).
    by apply elem_of_nil in HcolName.
Defined.



(** * Further properties of the classifier *)

Section Classification.
Context `{StringPrototype}.

Lemma processRows_Ok_inv (colIndices : gmap string nat) (rows : list (list string)) :
  ∀ i st st',
    processRows colIndices i rows st = Ok st' →
    ∃ outcomes,
      Forall2 (fun row outcome => prepareRow colIndices row = Ok outcome) rows outcomes.
Proof.
  induction rows as [|row rows IH]; intros i st st' Hrun; [by exists [] |].
  simpl in Hrun. destruct (prepareRow colIndices row) as [outcome|] eqn:Hrow; [| done].
  simpl in Hrun.
  assert (∃ st1, processRows colIndices (S i) rows st1 = Ok st') as [st1 Hrest]
    by (destruct outcome; eauto).
  destruct (IH _ _ _ Hrest) as [outcomes Houtcomes].
  exists (outcome :: outcomes). by constructor.
Qed.

Lemma processRows_throws (colIndices : gmap string nat) (rows : list (list string))
    (row : list string) :
  row ∈ rows →
  prepareRow colIndices row = TypeError →
  ∀ i st, processRows colIndices i rows st = TypeError.
Proof.
  intros Hrow Hthrows. induction rows as [|row0 rows IH]; intros i st.
  - by apply elem_of_nil in Hrow.
  - simpl. destruct (prepareRow colIndices row0) as [outcome|] eqn:Hrow0; [| done].
    apply elem_of_cons in Hrow as [-> | Hrow]; [congruence |].
    simpl. destruct outcome; by apply IH.
Qed.

(** The object [processData] returns has one bucket for every rule and no
    other key, on any sheet and with any index; on a valid sheet it is
    returned. *)
Theorem processData_has_every_category :
  (∀ (data : list (list string)) (colIndices : gmap string nat)
     (outputData : gmap string (list Array)),
     processData data colIndices = Ok outputData →
     ∀ sheetName, is_Some (outputData !! sheetName) ↔ sheetName ∈ GROUPING_RULES.*1)
  ∧ (∀ (headers : list string) (rows : list (list string)),
       validSheet (headers :: rows) = true →
       ∃ outputData,
         processData (headers :: rows) (findColumnHeaders headers) = Ok outputData
         ∧ ∀ sheetName,
             is_Some (outputData !! sheetName) ↔ sheetName ∈ GROUPING_RULES.*1).
Proof.
  assert (∀ (data : list (list string)) (colIndices : gmap string nat)
            (outputData : gmap string (list Array)),
            processData data colIndices = Ok outputData →
            ∀ sheetName,
              is_Some (outputData !! sheetName) ↔ sheetName ∈ GROUPING_RULES.*1)
    as Hkeys.
  { intros data colIndices outputData Hrun sheetName.
    unfold processData in Hrun.
    destruct (processRows colIndices 1 (drop 1 data) initialState) as [st|] eqn:Hrows;
      [| done].
    injection Hrun as <-.
    destruct (processRows_Ok_inv _ _ _ _ _ Hrows) as [outcomes Hprepared].
    destruct (processData_prepared colIndices [] _ _ Hprepared) as (st' & Hrows' & _ & Hst).
    assert (st' = st) as -> by congruence.
    destruct (Hst sheetName) as [-> _]. rewrite fmap_is_Some.
    unfold keywordsOf. rewrite <- elem_of_dom, dom_list_to_map_L.
    by rewrite elem_of_list_to_set. }
  split; [exact Hkeys |].
  intros headers rows Hvalid.
  destruct (processData_valid _ _ Hvalid) as [outputData HoutputData].
  exists outputData. split; [done |]. by eapply Hkeys.
Qed.

(** Without data rows (the header row alone, or nothing at all) the loop does
    not run: [processData] returns, for any index, an empty bucket for every
    rule. *)
Theorem no_data_rows_give_empty_buckets
    (data : list (list string)) (colIndices : gmap string nat) :
  length data ≤ 1 →
  ∃ outputData,
    processData data colIndices = Ok outputData
    ∧ ∀ sheetName,
        outputData !! sheetName
          = if decide (sheetName ∈ GROUPING_RULES.*1) then Some [] else None.
Proof.
  intros Hlen. exists (outputData initialState). split.
  - unfold processData.
    assert (drop 1 data = []) as -> by (destruct data as [|? [|? ?]]; simpl in *; [done.. | lia]).
    done.
  - intros sheetName. destruct (initialState_lookup sheetName) as [-> _].
    unfold keywordsOf. case_decide as Hin.
    + apply list_elem_of_fmap in Hin as ([name kws] & -> & Hin).
      apply GROUPING_RULES_lookup in Hin. unfold keywordsOf in Hin. cbn [fst].
      by rewrite Hin.
    + by rewrite (not_elem_of_list_to_map_1 _ _ Hin).
Qed.

(** There is no [try] around the row loop: one data row whose loop body
    throws makes the whole classification throw, with no partial result.  It
    does so when the index has no publishable column, and when a row is too
    short to have a publishable cell. *)
Theorem unreadable_row_aborts_classification
    (headers : list string) (rows : list (list string)) (row : list string)
    (colIndices : gmap string nat) :
  row ∈ rows →
  (prepareRow colIndices row = TypeError →
   processData (headers :: rows) colIndices = TypeError)
  ∧ (colIndices !! PUBLICABLE_COL_NAME = None →
     processData (headers :: rows) colIndices = TypeError)
  ∧ (∀ p, colIndices !! PUBLICABLE_COL_NAME = Some p → length row ≤ p →
     processData (headers :: rows) colIndices = TypeError).
Proof.
  intros Hrow.
  assert (prepareRow colIndices row = TypeError →
          processData (headers :: rows) colIndices = TypeError) as Hthrows.
  { intros Hthrows. unfold processData. change (drop 1 (headers :: rows)) with rows.
    by rewrite (processRows_throws _ _ _ Hrow Hthrows). }
  split_and!; [done | |].
  - intros Hnone. apply Hthrows. unfold prepareRow, publicableValue.
    by rewrite Hnone.
  - intros p Hp Hshort. apply Hthrows. unfold prepareRow, publicableValue.
    rewrite Hp, arrayGet_spread. by rewrite (lookup_ge_None_2 row p) by lia.
Qed.

End Classification.

Section Entries.
Context `{StringPrototype}.

Lemma selected_Parsed (kws : list string) (outcome : RowOutcome) (rowData : Array) :
  selected kws outcome = Some rowData →
  ∃ tags, outcome = Parsed rowData tags
          ∧ matchFound (toLowerCase <$> kws) tags = true.
Proof.
  destruct outcome as [|rowData' tags]; simpl; [done |].
  destruct (matchFound _ _) eqn:Hmatch; [| done].
  intros [= ->]. by exists tags.
Qed.

(** Every entry of a bucket is the copy of a data row of the sheet, the one
    that row gives when it is classified alone; it has as many cells as the
    header row, all defined, and no other property. *)
Theorem bucket_entries_are_copies_of_rows
    (headers : list string) (rows : list (list string)) (sheetName : string)
    (bucket : list Array) (rowData : Array) :
  validSheet (headers :: rows) = true →
  bucketOf (processData (headers :: rows) (findColumnHeaders headers)) sheetName
    = Some bucket →
  rowData ∈ bucket →
  ∃ row cells,
    row ∈ rows
    ∧ bucketOf (processData [headers; row] (findColumnHeaders headers)) sheetName
      = Some [rowData]
    ∧ rowData = spread cells
    ∧ length cells = length headers.
Proof.
  intros Hvalid Hbucket HrowData.
  destruct (validSheet_prepared _ _ Hvalid) as [outcomes Hprepared].
  rewrite (bucketOf_prepared _ _ _ _ _ Hprepared) in Hbucket.
  destruct (keywordsOf sheetName) as [kws|] eqn:Hkws; [| done].
  injection Hbucket as <-.
  apply list_elem_of_omap in HrowData as (outcome & Houtcome & Hselected).
  apply list_elem_of_lookup in Houtcome as [k Hk].
  destruct (Forall2_lookup_r _ _ _ _ _ Hprepared Hk) as (row & Hrow & Hprep).
  destruct (selected_Parsed _ _ _ Hselected) as (tags & -> & Hmatch).
  destruct (validSheet_inv _ _ Hvalid) as [Hrows (p & a & u & t & q & Hcols)].
  assert (row ∈ rows) as Hin by (apply list_elem_of_lookup; eauto).
  rewrite Forall_forall in Hrows. specialize (Hrows row Hin).
  destruct (prepareRow_Parsed _ _ _ _ _ _ _ _ _ _ Hcols Hrows Hprep)
    as (cu & cq & _ & _ & ->).
  eexists row, _. split_and!; [done | | reflexivity |].
  - rewrite (bucketOf_single _ _ _ _ _ _ Hprep Hkws). simpl. by rewrite Hmatch.
  - by rewrite !length_overwrite.
Qed.

(** The copy of a row in a bucket differs from the row in two columns at
    most: the answer holds the trimmed updated answer when that is not empty,
    the original tag holds the trimmed proposed tag when that is not empty,
    and every other cell, these two included otherwise, is the cell of the
    source row, untrimmed. *)
Theorem bucket_row_cells
    (headers row : list string) (a u t q : nat) (updated proposed : string)
    (sheetName : string) (rowData : Array) :
  validSheet [headers; row] = true →
  findColumnHeaders headers !! RESPUESTA_COL_NAME = Some a →
  findColumnHeaders headers !! RESPUESTA_ACT_COL_NAME = Some u →
  findColumnHeaders headers !! ETIQUETA_ORIG_COL_NAME = Some t →
  findColumnHeaders headers !! ETIQUETA_PROP_COL_NAME = Some q →
  row !! u = Some updated →
  row !! q = Some proposed →
  bucketOf (processData [headers; row] (findColumnHeaders headers)) sheetName
    = Some [rowData] →
  (∀ k, k ≠ a → k ≠ t → arrayGet rowData (Some k) = row !! k)
  ∧ arrayGet rowData (Some a)
    = (if decide (trim updated ≠ EmptyString) then Some (trim updated) else row !! a)
  ∧ arrayGet rowData (Some t)
    = (if decide (trim proposed ≠ EmptyString) then Some (trim proposed) else row !! t).
Proof.
  intros Hvalid Ha Hu Ht Hq Hupdated Hproposed Hbucket.
  destruct (validSheet_inv _ _ Hvalid) as [Hrows (p & a' & u' & t' & q' & Hcols)].
  apply Forall_cons in Hrows as [Hlen _].
  assert (a' = a) as ->
    by (pose proof (resolved_respuesta _ _ _ _ _ _ _ Hcols); congruence).
  assert (u' = u) as ->
    by (pose proof (resolved_actualizada _ _ _ _ _ _ _ Hcols); congruence).
  assert (t' = t) as ->
    by (pose proof (resolved_original _ _ _ _ _ _ _ Hcols); congruence).
  assert (q' = q) as ->
    by (pose proof (resolved_propuesta _ _ _ _ _ _ _ Hcols); congruence).
  destruct (prepareRow_total _ _ _ _ _ _ _ Hcols row Hlen) as [outcome Hrow].
  rewrite (bucketOf_prepared _ headers [row] [outcome]) in Hbucket
    by by repeat constructor.
  destruct (keywordsOf sheetName) as [kws|]; [| done]. simpl in Hbucket.
  destruct (selected kws outcome) as [rowData'|] eqn:Hselected; [| done].
  injection Hbucket as ->.
  destruct (selected_Parsed _ _ _ Hselected) as (tags & -> & _).
  destruct (prepareRow_Parsed _ _ _ _ _ _ _ _ _ _ Hcols Hlen Hrow)
    as (cu & cq & Hcu & Hcq & ->).
  assert (cu = updated) as -> by congruence.
  assert (cq = proposed) as -> by congruence.
  assert (a < length row ∧ t < length row ∧ t ≠ a) as (Ha_lt & Ht_lt & Hta).
  { pose proof (resolved_width _ _ _ _ _ _ _ Hcols) as Hwidth.
    pose proof (resolved_distinct _ _ _ _ _ _ _ Hcols) as Hdistinct.
    rewrite !Forall_cons in Hwidth.
    rewrite !NoDup_cons, !not_elem_of_cons in Hdistinct.
    split_and!; [lia | lia | intros ->; tauto]. }
  split_and!.
  - intros k Hka Hkt. by rewrite arrayGet_spread, !overwrite_lookup_ne.
  - rewrite arrayGet_spread, overwrite_lookup_ne by done.
    case_decide.
    + by apply overwrite_lookup_eq.
    + unfold overwrite. by case_decide.
  - rewrite arrayGet_spread. case_decide.
    + apply overwrite_lookup_eq; [done | by rewrite length_overwrite].
    + unfold overwrite at 1. case_decide; [done |].
      by rewrite overwrite_lookup_ne.
Qed.

(** The bucket of a sheet is the concatenation, in row order, of what its
    data rows give one by one, and a row gives one entry at most. *)
Theorem classification_is_row_wise
    (headers : list string) (rows : list (list string)) (sheetName : string)
    (kws : list string) :
  validSheet (headers :: rows) = true →
  keywordsOf sheetName = Some kws →
  ∃ entries,
    Forall2
      (fun row entry =>
         bucketOf (processData [headers; row] (findColumnHeaders headers)) sheetName
           = Some entry
         ∧ length entry ≤ 1)
      rows entries
    ∧ bucketOf (processData (headers :: rows) (findColumnHeaders headers)) sheetName
      = Some (concat entries).
Proof.
  intros [outcomes Hprepared]%validSheet_prepared Hkws.
  exists ((fun outcome => option_list (selected kws outcome)) <$> outcomes). split.
  - apply Forall2_fmap_r. eapply Forall2_impl; [exact Hprepared |].
    intros row outcome Hrow. simpl. split; [by apply bucketOf_single |].
    destruct (selected kws outcome); simpl; lia.
  - rewrite (bucketOf_prepared _ _ _ _ _ Hprepared), Hkws. simpl. f_equal.
    clear Hprepared. induction outcomes as [|outcome outcomes IH]; [done |].
    rewrite fmap_cons. cbn [concat]. rewrite <- IH. cbn [omap list_omap].
    by destruct (selected kws outcome).
Qed.

(** The header index sends a name to a position inside the header row, and
    never two names to the same position. *)
Theorem header_index_is_injective_and_in_range
    (headers : list string) (name : string) (k : nat) :
  findColumnHeaders headers !! name = Some k →
  k < length headers
  ∧ ∀ name', findColumnHeaders headers !! name' = Some k → name' = name.
Proof.
  intros Hk. split; [by eapply findColumnHeaders_lt |].
  intros name' Hk'. by eapply findColumnHeaders_inj.
Qed.

(** The guards of [processAndCreateSheetsAndDocs] are enough for a
    rectangular sheet of text cells: the run stops with an alert or
    classifies the sheet, and the classification does not throw.  The
    cells are strings, as in the JSDoc of the script; a header cell that is a
    number or a date makes [header.trim()] throw before the column guard,
    a case that a sheet of strings does not have. *)
Theorem rectangular_sheet_is_classified_or_alerted (principalData : list (list string)) :
  Forall (fun row => length row = length (default [] (principalData !! 0)))
    principalData →
  (∃ message, processAndCreateSheetsAndDocs (Some principalData) = Alert message)
  ∨ (∃ categorizedData,
       processAndCreateSheetsAndDocs (Some principalData)
         = Classified (Ok categorizedData)).
Proof.
  intros Hrect. unfold processAndCreateSheetsAndDocs.
  case_decide; [left; by eexists |].
  destruct principalData as [|headers rows]; [simpl in *; lia |].
  change (default [] ((headers :: rows) !! 0)) with headers in *.
  destruct (firstMissing (findColumnHeaders headers) requiredCols) as [colName|] eqn:Hfirst;
    [left; by eexists |].
  right. destruct (processData_valid headers rows) as [categorizedData Hrun];
    [| by exists categorizedData; rewrite Hrun].
  unfold validSheet. apply andb_true_iff. split.
  - apply forallb_forall. intros row Hrow. apply bool_decide_eq_true.
    apply Forall_cons in Hrect as [_ Hrect]. rewrite Forall_forall in Hrect.
    apply Hrect. by apply list_elem_of_In.
  - apply forallb_forall. intros colName HcolName. apply bool_decide_eq_true.
    rewrite firstMissing_None in Hfirst. apply Hfirst. by apply list_elem_of_In.
Qed.

End Entries.

(** * The sheets and the documents *)

Section Sheets.
Context `{StringPrototype} `{Host}.

Lemma createOrClearSheet_spec (headers : list string) (acc : list string * World)
    (entry : string * list Array) :
  (createOrClearSheet headers acc entry).1
    = acc.1 ++ (if decide (0 < length entry.2) then [entry.1] else [])
  ∧ drive (createOrClearSheet headers acc entry).2 = drive acc.2
  ∧ alerted (createOrClearSheet headers acc entry).2 = alerted acc.2
  ∧ prompted (createOrClearSheet headers acc entry).2 = prompted acc.2
  ∧ reports (createOrClearSheet headers acc entry).2 = reports acc.2.
Proof.
  destruct acc as [names w], entry as [sheetName dataRows].
  unfold createOrClearSheet. cbn [fst snd].
  case_decide.
  - destruct (getSheetByName (spreadsheet w) sheetName) as [targetSheet|];
      [| destruct (insertSheet sheetName (spreadsheet w)) as [targetSheet ss]];
      done.
  - rewrite app_nil_r.
    by destruct (getSheetByName (spreadsheet w) sheetName).
Qed.

Lemma fold_createOrClearSheet (headers : list string)
    (categorizedData : list (string * list Array)) :
  ∀ acc : list string * World,
    (fold_left (createOrClearSheet headers) categorizedData acc).1
      = acc.1 ++ (filter (fun entry => 0 < length entry.2) categorizedData).*1
    ∧ drive (fold_left (createOrClearSheet headers) categorizedData acc).2 = drive acc.2
    ∧ alerted (fold_left (createOrClearSheet headers) categorizedData acc).2
      = alerted acc.2
    ∧ prompted (fold_left (createOrClearSheet headers) categorizedData acc).2
      = prompted acc.2
    ∧ reports (fold_left (createOrClearSheet headers) categorizedData acc).2
      = reports acc.2.
Proof.
  induction categorizedData as [|entry entries IH]; intros acc.
  - simpl. by rewrite app_nil_r.
  - cbn [fold_left].
    destruct (IH (createOrClearSheet headers acc entry)) as (-> & -> & -> & -> & ->).
    destruct (createOrClearSheet_spec headers acc entry) as (-> & -> & -> & -> & ->).
    split_and!; [| done..].
    rewrite filter_cons. case_decide; [| by rewrite app_nil_r].
    by rewrite fmap_cons, <- app_assoc.
Qed.

(** [createOrClearSheets] returns the names of the entries that have rows,
    in the order of the entries, whatever the spreadsheet holds and does; it
    shows no alert and no prompt and writes no report. *)
Theorem createOrClearSheets_returns_the_filled_buckets
    (categorizedData : list (string * list Array)) (headers : list string)
    (w : World) :
  (createOrClearSheets categorizedData headers w).1
    = (filter (fun entry => 0 < length entry.2) categorizedData).*1
  ∧ drive (createOrClearSheets categorizedData headers w).2 = drive w
  ∧ alerted (createOrClearSheets categorizedData headers w).2 = alerted w
  ∧ prompted (createOrClearSheets categorizedData headers w).2 = prompted w
  ∧ reports (createOrClearSheets categorizedData headers w).2 = reports w.
Proof. apply (fold_createOrClearSheet headers categorizedData ([], w)). Qed.

Lemma forIn_prepared (colIndices : gmap string nat) (headers : list string)
    (rows : list (list string)) (outcomes : list RowOutcome) :
  Forall2 (fun row outcome => prepareRow colIndices row = Ok outcome) rows outcomes →
  ∃ categorizedData,
    processData (headers :: rows) colIndices = Ok categorizedData
    ∧ forIn categorizedData
      = (fun rule => (rule.1, omap (selected rule.2) outcomes)) <$> GROUPING_RULES.
Proof.
  intros Hprepared.
  destruct (processData_prepared _ headers _ _ Hprepared) as (st & _ & Hrun & Hst).
  exists (outputData st). split; [done |]. unfold forIn.
  assert (∀ rules : list (string * list string),
            rules ⊆ GROUPING_RULES →
            omap (fun '(sheetName, _) =>
                    (fun dataRows => (sheetName, dataRows)) <$> outputData st !! sheetName)
              rules
            = (fun rule => (rule.1, omap (selected rule.2) outcomes)) <$> rules)
    as Hrules; [| by apply Hrules].
  induction rules as [|[sheetName kws] rules IH]; intros Hsub; [done |].
  cbn [omap list_omap]. destruct (Hst sheetName) as [-> _].
  assert (keywordsOf sheetName = Some kws) as ->.
  { apply GROUPING_RULES_lookup, Hsub. by left. }
  simpl. f_equal. apply IH. intros rule Hrule. apply Hsub. by right.
Qed.

(** On a valid sheet, the names [createOrClearSheets] returns for what
    [processData] returned are rule names in the order of the rules, and a
    rule is among them exactly when some data row of the sheet, classified
    alone, is in its bucket. *)
Theorem sheet_is_produced_iff_some_row_is_selected
    (headers : list string) (rows : list (list string)) (w : World) :
  validSheet (headers :: rows) = true →
  ∃ categorizedData,
    processData (headers :: rows) (findColumnHeaders headers) = Ok categorizedData
    ∧ (createOrClearSheets (forIn categorizedData) headers w).1
        `sublist_of` GROUPING_RULES.*1
    ∧ ∀ sheetName,
        sheetName ∈ (createOrClearSheets (forIn categorizedData) headers w).1 ↔
        ∃ row rowData,
          row ∈ rows
          ∧ bucketOf (processData [headers; row] (findColumnHeaders headers)) sheetName
            = Some [rowData].
Proof.
  intros Hvalid.
  destruct (validSheet_prepared _ _ Hvalid) as [outcomes Hprepared].
  destruct (forIn_prepared _ headers _ _ Hprepared) as (categorizedData & Hrun & HforIn).
  exists categorizedData. split; [done |].
  unfold createOrClearSheets.
  destruct (fold_createOrClearSheet headers (forIn categorizedData) ([], w)) as [-> _].
  cbn [fst app].
  rewrite HforIn. split.
  - assert (((fun rule : string * list string =>
                (rule.1, omap (selected rule.2) outcomes)) <$> GROUPING_RULES).*1
            = GROUPING_RULES.*1) as Hnames
      by (rewrite <- list_fmap_compose; by apply list_fmap_ext).
    etrans; [apply fmap_sublist, sublist_filter |]. by rewrite Hnames.
  - intros sheetName. rewrite list_elem_of_fmap. split.
    + intros ([name bucket] & -> & [Hfilled Hentry]%list_elem_of_filter).
      apply list_elem_of_fmap in Hentry as ([name' kws] & [= -> ->] & Hrule).
      cbn [fst snd] in *.
      destruct (omap (selected kws) outcomes) as [|rowData bucket] eqn:Hbucket;
        [simpl in Hfilled; lia |].
      assert (rowData ∈ omap (selected kws) outcomes) as HrowData
        by (rewrite Hbucket; left).
      apply list_elem_of_omap in HrowData as (outcome & Houtcome & Hselected).
      apply list_elem_of_lookup in Houtcome as [k Hk].
      destruct (Forall2_lookup_r _ _ _ _ _ Hprepared Hk) as (row & Hrow & Hprep).
      exists row, rowData. split; [apply list_elem_of_lookup; eauto |].
      apply GROUPING_RULES_lookup in Hrule.
      by rewrite (bucketOf_single _ _ _ _ _ _ Hprep Hrule), Hselected.
    + intros (row & rowData & Hrow & Hbucket).
      apply list_elem_of_lookup in Hrow as [k Hk].
      destruct (Forall2_lookup_l _ _ _ _ _ Hprepared Hk) as (outcome & Houtcome & Hprep).
      destruct (keywordsOf sheetName) as [kws|] eqn:Hkws.
      * rewrite (bucketOf_single _ _ _ _ _ _ Hprep Hkws) in Hbucket.
        destruct (selected kws outcome) as [rowData'|] eqn:Hselected; [| done].
        exists (sheetName, omap (selected kws) outcomes). split; [done |].
        apply list_elem_of_filter. split.
        -- cbn [snd].
           assert (rowData' ∈ omap (selected kws) outcomes) as Hin.
           { apply list_elem_of_omap. exists outcome. split; [| done].
             apply list_elem_of_lookup. eauto. }
           destruct (omap (selected kws) outcomes); [by apply elem_of_nil in Hin |].
           simpl. lia.
        -- apply list_elem_of_fmap. exists (sheetName, kws). split; [done |].
           by apply GROUPING_RULES_lookup.
      * rewrite (bucketOf_prepared _ headers [row] [outcome]) in Hbucket
          by by repeat constructor.
        by rewrite Hkws in Hbucket.
Qed.

End Sheets.

Section Documents.
Context `{StringPrototype} `{Host}.

Lemma createDocFromSheet_spec (folder : option Folder) (w : World) (sheetName : string) :
  spreadsheet (createDocFromSheet folder w sheetName) = spreadsheet w
  ∧ alerted (createDocFromSheet folder w sheetName) = alerted w
  ∧ prompted (createDocFromSheet folder w sheetName) = prompted w
  ∧ reports (createDocFromSheet folder w sheetName)
    = reports w ++
      option_list
        match getSheetByName (spreadsheet w) sheetName with
        | Some sheet =>
            if decide (getLastRow sheet (spreadsheet w) ≤ 1) then None
            else Some {| docName := "Reporte - " +:+ sheetName;
                         destination := folder;
                         heading := sheetName;
                         table := getValues sheet (spreadsheet w) |}
        | None => None
        end.
Proof.
  unfold createDocFromSheet.
  destruct (getSheetByName (spreadsheet w) sheetName) as [sheet|];
    [| by rewrite app_nil_r].
  case_decide; [by rewrite app_nil_r |].
  destruct (createReport _ (drive w)) as [[id|e] d]; done.
Qed.

Lemma fold_createDocFromSheet (folder : option Folder) (sheetNames : list string) :
  ∀ w : World,
    spreadsheet (fold_left (createDocFromSheet folder) sheetNames w) = spreadsheet w
    ∧ alerted (fold_left (createDocFromSheet folder) sheetNames w) = alerted w
    ∧ prompted (fold_left (createDocFromSheet folder) sheetNames w) = prompted w
    ∧ reports (fold_left (createDocFromSheet folder) sheetNames w)
      = reports w ++
        omap (fun sheetName =>
                match getSheetByName (spreadsheet w) sheetName with
                | Some sheet =>
                    if decide (getLastRow sheet (spreadsheet w) ≤ 1) then None
                    else Some {| docName := "Reporte - " +:+ sheetName;
                                 destination := folder;
                                 heading := sheetName;
                                 table := getValues sheet (spreadsheet w) |}
                | None => None
                end)
          sheetNames.
Proof.
  induction sheetNames as [|sheetName sheetNames IH]; intros w.
  - simpl. by rewrite app_nil_r.
  - cbn [fold_left].
    destruct (IH (createDocFromSheet folder w sheetName)) as (-> & -> & -> & ->).
    destruct (createDocFromSheet_spec folder w sheetName) as (-> & -> & -> & ->).
    split_and!; [done.. |].
    rewrite <- app_assoc. f_equal. cbn [omap list_omap].
    by destruct (getSheetByName (spreadsheet w) sheetName) as [sheet|];
      [case_decide |].
Qed.

(** After OK, one report is set out for every listed name whose sheet exists
    and has a row below the first, in the order of the list, and for no
    other: it is named "Reporte - " and the sheet name, has the sheet name
    as heading and the values of the sheet as table, and all the reports go
    to the same folder, which is never [null].  The spreadsheet is only
    read. *)
Theorem reports_are_written_for_the_sheets_with_data
    (sheetNames : list string) (response : PromptResponse) (w : World) :
  getSelectedButton response = Button.OK →
  ∃ folder,
    reports (createDocsFromSheets sheetNames response w)
      = reports w ++
        omap (fun sheetName =>
                match getSheetByName (spreadsheet w) sheetName with
                | Some sheet =>
                    if decide (getLastRow sheet (spreadsheet w) ≤ 1) then None
                    else Some {| docName := "Reporte - " +:+ sheetName;
                                 destination := Some folder;
                                 heading := sheetName;
                                 table := getValues sheet (spreadsheet w) |}
                | None => None
                end)
          sheetNames
    ∧ spreadsheet (createDocsFromSheets sheetNames response w) = spreadsheet w.
Proof.
  intros Hok. unfold createDocsFromSheets. rewrite decide_True by done.
  cbn [prompt drive].
  assert (∀ (folder : Folder) (w0 : World),
            spreadsheet w0 = spreadsheet w → reports w0 = reports w →
            reports (fold_left (createDocFromSheet (Some folder)) sheetNames w0)
              = reports w ++
                omap (fun sheetName =>
                        match getSheetByName (spreadsheet w) sheetName with
                        | Some sheet =>
                            if decide (getLastRow sheet (spreadsheet w) ≤ 1) then None
                            else Some {| docName := "Reporte - " +:+ sheetName;
                                         destination := Some folder;
                                         heading := sheetName;
                                         table := getValues sheet (spreadsheet w) |}
                        | None => None
                        end)
                  sheetNames
            ∧ spreadsheet (fold_left (createDocFromSheet (Some folder)) sheetNames w0)
              = spreadsheet w) as Hloop.
  { intros folder w0 Hss Hreports.
    destruct (fold_createDocFromSheet (Some folder) sheetNames w0) as (-> & _ & _ & ->).
    by rewrite Hss, Hreports. }
  case_decide.
  - destruct (getFolderById _ _) as [folder|e].
    + exists folder. by apply Hloop.
    + exists (getRootFolder (drive w)). by apply Hloop.
  - exists (getRootFolder (drive w)). by apply Hloop.
Qed.

(** After OK, the folder of every report is the one the trimmed answer
    names; it is the root folder when the answer is blank, without any
    alert, and when the identifier does not resolve, after exactly one alert
    that names it. *)
Theorem folder_is_the_root_unless_the_identifier_resolves
    (sheetNames : list string) (response : PromptResponse) (w : World) :
  getSelectedButton response = Button.OK →
  ∃ folder new,
    reports (createDocsFromSheets sheetNames response w) = reports w ++ new
    ∧ (∀ report, report ∈ new → destination report = Some folder)
    ∧ (trim (getResponseText response) = EmptyString →
       folder = getRootFolder (drive w)
       ∧ alerted (createDocsFromSheets sheetNames response w) = alerted w)
    ∧ (∀ found,
         trim (getResponseText response) ≠ EmptyString →
         getFolderById (trim (getResponseText response)) (drive w) = inl found →
         folder = found
         ∧ alerted (createDocsFromSheets sheetNames response w) = alerted w)
    ∧ (∀ e,
         trim (getResponseText response) ≠ EmptyString →
         getFolderById (trim (getResponseText response)) (drive w) = inr e →
         folder = getRootFolder (drive w)
         ∧ alerted (createDocsFromSheets sheetNames response w)
           = alerted w ++
             [ "No se pudo encontrar o acceder a la carpeta con ID " +:+ quote
               +:+ trim (getResponseText response) +:+ quote
               +:+ ". Los documentos se guardarán en la raíz de " +:+ quote
               +:+ "Mi unidad" +:+ quote +:+ "." ]).
Proof.
  intros Hok.
  assert (∀ (folder : Folder) (w0 : World),
            ∃ new,
              reports (fold_left (createDocFromSheet (Some folder)) sheetNames w0)
                = reports w0 ++ new
              ∧ (∀ report, report ∈ new → destination report = Some folder)
              ∧ alerted (fold_left (createDocFromSheet (Some folder)) sheetNames w0)
                = alerted w0) as Hloop.
  { intros folder w0.
    destruct (fold_createDocFromSheet (Some folder) sheetNames w0) as (_ & -> & _ & ->).
    eexists. split_and!; [done | | done].
    intros report (sheetName & _ & Hreport)%list_elem_of_omap.
    destruct (getSheetByName (spreadsheet w0) sheetName); [| done].
    case_decide; [done |]. by injection Hreport as <-. }
  unfold createDocsFromSheets. rewrite decide_True by done.
  cbn [prompt drive].
  case_decide as Hblank.
  - destruct (getFolderById _ _) as [folder|e] eqn:Hfolder.
    + match goal with
      | |- context [fold_left _ _ ?w0] =>
          destruct (Hloop folder w0) as (new & Hreports & Hdestination & Halerted)
      end.
      exists folder, new. split_and!; [done | done | done | |].
      * intros found _ [= <-]. done.
      * intros e _ [=].
    + match goal with
      | |- context [fold_left _ _ ?w0] =>
          destruct (Hloop (getRootFolder (drive w)) w0)
            as (new & Hreports & Hdestination & Halerted)
      end.
      exists (getRootFolder (drive w)), new. split_and!; [done | done | done | |].
      * intros found _ [=].
      * intros e' _ _. done.
  - match goal with
    | |- context [fold_left _ _ ?w0] =>
        destruct (Hloop (getRootFolder (drive w)) w0)
          as (new & Hreports & Hdestination & Halerted)
    end.
    exists (getRootFolder (drive w)), new.
    split_and!; [done | done | done | |]; intros; by destruct Hblank.
Qed.

End Documents.

Section Run.
Context `{StringPrototype} `{Host}.

Lemma processAndCreateSheetsAndDocs_valid (headers : list string)
    (rows : list (list string)) :
  validSheet (headers :: rows) = true →
  rows ≠ [] →
  processAndCreateSheetsAndDocs (Some (headers :: rows))
    = Classified (processData (headers :: rows) (findColumnHeaders headers)).
Proof.
  intros Hvalid Hrows. unfold processAndCreateSheetsAndDocs.
  rewrite decide_False by (destruct rows; [done | simpl; lia]).
  change (default [] ((headers :: rows) !! 0)) with headers.
  assert (firstMissing (findColumnHeaders headers) requiredCols = None) as ->; [| done].
  apply firstMissing_None. intros colName HcolName.
  unfold validSheet in Hvalid. apply andb_true_iff in Hvalid as [_ Hcols].
  rewrite forallb_forall in Hcols.
  eapply bool_decide_eq_true_1, Hcols. by apply list_elem_of_In.
Qed.

(** On a valid sheet with data rows the run returns, and its last alert
    depends on the sheets only: the alert that no sheet was generated when
    every bucket is empty, in which case nothing is prompted and no report
    is set out, and otherwise the completion alert with the number of sheets
    written, which also follows a cancelled prompt, after the alert of the
    cancellation and without any report. *)
Theorem run_ends_with_the_completion_alert
    (response : PromptResponse) (w : World) (principalSheet : Sheet)
    (headers : list string) (rows : list (list string)) :
  getSheetByName (spreadsheet w) PRINCIPAL_SHEET_NAME = Some principalSheet →
  getValues principalSheet (spreadsheet w) = headers :: rows →
  rows ≠ [] →
  validSheet (headers :: rows) = true →
  ∃ categorizedData created w',
    processData (headers :: rows) (findColumnHeaders headers) = Ok categorizedData
    ∧ created = (createOrClearSheets (forIn categorizedData) headers w).1
    ∧ runScript response w = Ok w'
    ∧ last (alerted w')
      = Some (if decide (created = []) then noSheetsAlert
              else completedAlert (length created))
    ∧ (created = [] →
       prompted w' = prompted w ∧ reports w' = reports w
       ∧ alerted w' = alerted w ++ [noSheetsAlert])
    ∧ (created ≠ [] → getSelectedButton response ≠ Button.OK →
       reports w' = reports w
       ∧ alerted w'
         = alerted w ++ [ "Creación de documentos cancelada.";
                          completedAlert (length created) ]).
Proof.
  intros Hsheet Hvalues Hrows Hvalid.
  destruct (processData_valid _ _ Hvalid) as [categorizedData Hrun].
  exists categorizedData, (createOrClearSheets (forIn categorizedData) headers w).1.
  unfold runScript. rewrite Hsheet. cbn [fmap option_fmap option_map]. rewrite Hvalues.
  rewrite (processAndCreateSheetsAndDocs_valid _ _ Hvalid Hrows), Hrun.
  cbn [bind].
  change (default [] (default [] (Some (headers :: rows)) !! 0)) with headers.
  pose proof (fold_createOrClearSheet headers (forIn categorizedData) ([], w))
    as (_ & _ & Halerted & Hprompted & Hreports).
  fold (createOrClearSheets (forIn categorizedData) headers w)
    in Halerted, Hprompted, Hreports.
  cbn [snd] in Halerted, Hprompted, Hreports.
  destruct (createOrClearSheets (forIn categorizedData) headers w) as [created w1].
  cbn [fst snd] in *.
  case_decide as Hcreated.
  - eexists. split_and!; [done | done | done | | |].
    + cbn [alert alerted]. rewrite last_snoc.
      rewrite decide_False; [done |]. by destruct created; [simpl in Hcreated; lia |].
    + intros ->. simpl in Hcreated. lia.
    + intros _ Hcancel. unfold createDocsFromSheets.
      rewrite decide_False by done. cbn [alert log prompt alerted reports].
      by rewrite Halerted, Hreports, <- app_assoc.
  - assert (created = []) as -> by (destruct created; [done | simpl in Hcreated; lia]).
    eexists. split_and!; [done | done | done | | | done].
    + cbn [alert alerted]. by rewrite last_snoc.
    + intros _. cbn [alert alerted prompted reports]. by rewrite Halerted.
Qed.

End Run.

(** * The further properties on the sample sheet and host *)

Lemma processData_has_every_category_witness :
  ∃ outputData,
    Sample.classify [Sample.beca] = Ok outputData
    ∧ is_Some (outputData !! "FAQ_Alumnos_Examen").
Proof.
  destruct (proj2 (processData_has_every_category (H := BasicLatin.host))
              Sample.headers [Sample.beca])
    as (outputData & Hrun & Hkeys); [vm_compute; reflexivity |].
  exists outputData. split; [exact Hrun |].
  apply Hkeys. right. left.
Defined.

Lemma no_data_rows_give_empty_buckets_witness :
  ∃ outputData,
    processData (H := BasicLatin.host) [Sample.headers] ∅ = Ok outputData
    ∧ outputData !! "FAQ_Ingresantes" = Some [].
Proof.
  destruct (no_data_rows_give_empty_buckets (H := BasicLatin.host) [Sample.headers] ∅)
    as (outputData & Hrun & Hbuckets); [simpl; lia |].
  exists outputData. split; [exact Hrun |].
  rewrite Hbuckets. vm_compute. reflexivity.
Defined.

Lemma unreadable_row_aborts_classification_witness :
  processData (H := BasicLatin.host) [Sample.headers; Sample.beca; ["SI"]]
    Sample.colIndices = TypeError.
Proof.
  destruct (unreadable_row_aborts_classification (H := BasicLatin.host)
              Sample.headers [Sample.beca; ["SI"]] ["SI"] Sample.colIndices)
    as (Hthrows & _ & _); [right; left |].
  apply Hthrows. vm_compute. reflexivity.
Defined.

Lemma bucket_entries_are_copies_of_rows_witness :
  ∃ row cells,
    row ∈ [Sample.beca; Sample.examen]
    ∧ spread ["SI"; "new answer"; "new answer"; "Beca"; ""] = spread cells
    ∧ length cells = 5.
Proof.
  destruct (bucket_entries_are_copies_of_rows (H := BasicLatin.host)
              Sample.headers [Sample.beca; Sample.examen] "FAQ_Ingresantes"
              [spread ["SI"; "new answer"; "new answer"; "Beca"; ""]]
              (spread ["SI"; "new answer"; "new answer"; "Beca"; ""]))
    as (row & cells & Hrow & _ & Hcells & Hlength);
    [vm_compute; reflexivity | vm_compute; reflexivity | left |].
  exists row, cells. split_and!; [exact Hrow | exact Hcells | exact Hlength].
Defined.

Lemma bucket_row_cells_witness :
  arrayGet (spread ["SI"; "new answer"; "new answer"; "Beca"; ""]) (Some 1)
    = Some "new answer"
  ∧ arrayGet (spread ["SI"; "new answer"; "new answer"; "Beca"; ""]) (Some 3)
    = Some "Beca".
Proof.
  destruct (bucket_row_cells (H := BasicLatin.host)
              Sample.headers Sample.beca 1 2 3 4 "new answer" "" "FAQ_Ingresantes"
              (spread ["SI"; "new answer"; "new answer"; "Beca"; ""]))
    as (_ & Hanswer & Htag);
    [vm_compute; reflexivity | vm_compute; reflexivity | vm_compute; reflexivity
    | vm_compute; reflexivity | vm_compute; reflexivity | reflexivity | reflexivity
    | vm_compute; reflexivity |].
  split; [exact Hanswer | exact Htag].
Defined.

Lemma classification_is_row_wise_witness :
  ∃ entries,
    bucketOf (Sample.classify [Sample.beca; Sample.notPublished; Sample.twoKeywords])
      "FAQ_Ingresantes" = Some (concat entries)
    ∧ length entries = 3.
Proof.
  destruct (classification_is_row_wise (H := BasicLatin.host)
              Sample.headers [Sample.beca; Sample.notPublished; Sample.twoKeywords]
              "FAQ_Ingresantes"
              ["Ingreso"; "Ingresantes"; "Art. 7"; "Inscripción"; "Beca"; "CIVU"])
    as (entries & Hentries & Hbucket);
    [vm_compute; reflexivity | vm_compute; reflexivity |].
  exists entries. split; [exact Hbucket |].
  symmetry. exact (Forall2_length _ _ _ Hentries).
Defined.

Lemma header_index_is_injective_and_in_range_witness :
  1 < length Sample.headers.
Proof.
  destruct (header_index_is_injective_and_in_range (H := BasicLatin.host)
              Sample.headers "Respuesta" 1) as [Hlt _];
    [vm_compute; reflexivity |].
  exact Hlt.
Defined.

Lemma rectangular_sheet_is_classified_or_alerted_witness :
  (∃ message,
     processAndCreateSheetsAndDocs (H := BasicLatin.host)
       (Some [Sample.headers; Sample.beca]) = Alert message)
  ∨ (∃ categorizedData,
       processAndCreateSheetsAndDocs (H := BasicLatin.host)
         (Some [Sample.headers; Sample.beca]) = Classified (Ok categorizedData)).
Proof.
  apply (rectangular_sheet_is_classified_or_alerted (H := BasicLatin.host)
           [Sample.headers; Sample.beca]).
  repeat constructor.
Defined.

Lemma sheet_is_produced_iff_some_row_is_selected_witness :
  ∃ categorizedData,
    Sample.classify [Sample.beca] = Ok categorizedData
    ∧ "FAQ_Ingresantes"
        ∈ (createOrClearSheets (H0 := SampleHost.host) (forIn categorizedData)
             Sample.headers (SampleHost.world [Sample.beca])).1.
Proof.
  destruct (sheet_is_produced_iff_some_row_is_selected
              (H := BasicLatin.host) (H0 := SampleHost.host)
              Sample.headers [Sample.beca] (SampleHost.world [Sample.beca]))
    as (categorizedData & Hrun & _ & Hproduced); [vm_compute; reflexivity |].
  exists categorizedData. split; [exact Hrun |].
  apply Hproduced.
  exists Sample.beca, (spread ["SI"; "new answer"; "new answer"; "Beca"; ""]).
  split; [left | vm_compute; reflexivity].
Defined.

Lemma reports_are_written_for_the_sheets_with_data_witness :
  ∃ folder,
    reports (createDocsFromSheets (H := BasicLatin.host) (H0 := SampleHost.host)
               ["FAQ_Ingresantes"; "FAQ_Alumnos_Examen"; "FAQ_Tramites_Equivalencias_SAG"]
               (SampleHost.ok " reportes ") SampleHost.written)
    = [ {| docName := "Reporte - FAQ_Ingresantes";
           destination := Some folder;
           heading := "FAQ_Ingresantes";
           table := [["Publicable"]; ["SI"]] |} ].
Proof.
  destruct (reports_are_written_for_the_sheets_with_data
              (H := BasicLatin.host) (H0 := SampleHost.host)
              ["FAQ_Ingresantes"; "FAQ_Alumnos_Examen"; "FAQ_Tramites_Equivalencias_SAG"]
              (SampleHost.ok " reportes ") SampleHost.written)
    as (folder & Hreports & _); [reflexivity |].
  exists folder. rewrite Hreports. reflexivity.
Defined.

Lemma folder_is_the_root_unless_the_identifier_resolves_witness :
  length (alerted (createDocsFromSheets (H := BasicLatin.host) (H0 := SampleHost.host)
                     ["FAQ_Ingresantes"] (SampleHost.ok "nowhere") SampleHost.written))
  = 1.
Proof.
  destruct (folder_is_the_root_unless_the_identifier_resolves
              (H := BasicLatin.host) (H0 := SampleHost.host)
              ["FAQ_Ingresantes"] (SampleHost.ok "nowhere") SampleHost.written)
    as (folder & new & _ & _ & _ & _ & Hinvalid); [reflexivity |].
  destruct (Hinvalid "Exception: no folder") as [_ Halerted];
    [vm_compute; discriminate | reflexivity |].
  rewrite Halerted. reflexivity.
Defined.

Lemma run_ends_with_the_completion_alert_witness :
  ∃ w',
    runScript (H := BasicLatin.host) (H0 := SampleHost.host)
      SampleHost.cancel (SampleHost.world [Sample.beca]) = Ok w'
    ∧ reports w' = []
    ∧ alerted w' = ["Creación de documentos cancelada."; completedAlert 1].
Proof.
  destruct (run_ends_with_the_completion_alert
              (H := BasicLatin.host) (H0 := SampleHost.host)
              SampleHost.cancel (SampleHost.world [Sample.beca])
              PRINCIPAL_SHEET_NAME Sample.headers [Sample.beca])
    as (categorizedData & created & w' & Hrun & Hcreated & Hscript & _ & _ & Hcancel);
    [vm_compute; reflexivity | vm_compute; reflexivity | discriminate
    | vm_compute; reflexivity |].
  exists w'. split; [exact Hscript |].
  assert (created = ["FAQ_Ingresantes"]) as ->.
  { rewrite Hcreated. vm_compute in Hrun. injection Hrun as <-.
    vm_compute. reflexivity. }
  destruct Hcancel as [Hreports Halerted]; [discriminate | discriminate |].
  split; [exact Hreports | exact Halerted].
Defined.
